(** * Commodity price forecasting engine

    A shallow embedding of [Backend/market_price_prediction.py]
    (class [MarketPricePredictor]) and the properties of its training,
    prediction, forecasting and persistence paths.

    Conventions.
    - Python floats are rationals ([Q]) extended with [NaN] and the two
      infinities; rounding error of binary floating point is not modelled.
    - The estimators, the scaler, [r2_score] and [train_test_split] of
      scikit-learn and the transcendental functions of numpy are an
      interface ([Sklearn], [Numpy]); the code of the predictor is
      written over that interface.
    - The global random generator of numpy and the wall clock are explicit
      state ([World]) threaded through every call that reads them.
    - Python dictionaries keyed by commodity are [gmap string _]. *)

From Stdlib Require Import ZArith QArith Qround Lia Lqa.
From stdpp Require Import base option list strings gmap.

Local Open Scope Z_scope.

(** ** Floating-point values *)

Inductive float64 : Type :=
| Fin (q : Q)
| NaN
| PInf
| NInf.

Definition Qltb (a b : Q) : bool := negb (Qle_bool b a).

(** [a > b] on floats; any comparison with [NaN] is false. *)
Definition fgt (a b : float64) : bool :=
  match a, b with
  | NaN, _ | _, NaN => false
  | Fin x, Fin y => Qltb y x
  | PInf, PInf => false
  | PInf, _ => true
  | Fin _, NInf => true
  | Fin _, PInf => false
  | NInf, _ => false
  end.

Definition flt (a b : float64) : bool := fgt b a.

(** Float division of numpy scalars: a zero divisor yields an infinity or
    [NaN], without raising. *)
Definition fdiv (a b : float64) : float64 :=
  match a, b with
  | NaN, _ | _, NaN => NaN
  | Fin x, Fin y =>
      if Qeq_bool y 0 then
        (if Qeq_bool x 0 then NaN else if Qltb 0 x then PInf else NInf)
      else Fin (x / y)
  | Fin _, (PInf | NInf) => Fin 0
  | PInf, Fin y => if Qltb y 0 then NInf else PInf
  | NInf, Fin y => if Qltb y 0 then PInf else NInf
  | (PInf | NInf), (PInf | NInf) => NaN
  end.

Definition is_nan (a : float64) : bool :=
  match a with NaN => true | _ => false end.

Definition of_int (z : Z) : float64 := Fin (inject_Z z).

(** Round half to even, as [round(x, 2)] does on a numpy float. *)
Definition round_half_even (q : Q) : Z :=
  let f := Qfloor q in
  let r := (q - inject_Z f)%Q in
  if Qltb r (1 # 2) then f
  else if Qltb (1 # 2) r then f + 1
  else if Z.even f then f else f + 1.

Definition round2 (x : float64) : float64 :=
  match x with
  | Fin q => Fin (inject_Z (round_half_even (q * 100)) / 100)
  | other => other
  end.

(** ** Dates *)

(** A naive [datetime]: microseconds elapsed since the start of day 0 of the
    proleptic Gregorian ordinal (day 1 is 0001-01-01). *)
Record datetime : Type := mk_datetime { timestamp : Z }.

Definition micros_per_day : Z := 86400000000.

Definition toordinal (d : datetime) : Z := timestamp d / micros_per_day.

Definition at_midnight (ord : Z) : datetime := mk_datetime (ord * micros_per_day).

Record timedelta : Type := mk_timedelta { td_days : Z }.

Definition dt_add (d : datetime) (t : timedelta) : datetime :=
  mk_datetime (timestamp d + td_days t * micros_per_day).


(** Civil date of an ordinal. *)
Definition civil (ord : Z) : Z * Z * Z :=
  let z := ord + 305 in
  let era := z / 146097 in
  let doe := z - era * 146097 in
  let yoe := (doe - doe / 1460 + doe / 36524 - doe / 146096) / 365 in
  let doy := doe - (365 * yoe + yoe / 4 - yoe / 100) in
  let mp := (5 * doy + 2) / 153 in
  let d := doy - (153 * mp + 2) / 5 + 1 in
  let m := if mp <? 10 then mp + 3 else mp - 9 in
  let y := yoe + era * 400 + (if m <=? 2 then 1 else 0) in
  (y, m, d).

Definition year (d : datetime) : Z := fst (fst (civil (toordinal d))).
Definition month (d : datetime) : Z := snd (fst (civil (toordinal d))).
Definition day (d : datetime) : Z := snd (civil (toordinal d)).

Definition days_before_year (y : Z) : Z :=
  let p := y - 1 in p * 365 + p / 4 - p / 100 + p / 400.

Definition dayofyear (d : datetime) : Z := toordinal d - days_before_year (year d).
Definition weekday (d : datetime) : Z := (toordinal d + 6) mod 7.
Definition quarter (d : datetime) : Z := (month d - 1) / 3 + 1.

(** 2020-01-01, the first day of the generated history. *)
Definition ord_2020_01_01 : Z := 737425.

(** ** Data model *)

(** The dataclass [PriceData]; a row of a commodity's history has the same
    columns. *)
Record PriceData : Type := mk_PriceData {
  crop_name : string;
  market_name : string;
  price : Q;
  price_unit : string;
  date : datetime;
  quality : string;
  source : string
}.

(** A pandas [DataFrame] of price rows, in positional order. *)
Abbreviation DataFrame := (list PriceData).

Record PricePrediction : Type := mk_PricePrediction {
  pred_crop_name : string;
  predicted_price : float64;
  confidence : Q;
  prediction_date : datetime;
  factors : gmap string float64;
  recommendation : string
}.

Inductive exn : Type :=
| ValueError (msg : string)
| KeyError (key : string).

(** The error [predict_price] raises for a commodity without a model. *)
Definition ModelUnavailable (crop : string) : exn :=
  ValueError ("No model available for " +:+ crop).

Inductive result (A : Type) : Type :=
| Ok (a : A)
| Raise (e : exn).
Arguments Ok {A} a.
Arguments Raise {A} e.

(** ** External libraries *)

Inductive model_kind : Type :=
| RandomForestRegressor
| GradientBoostingRegressor
| LinearRegression.

(** scikit-learn: fitted estimators and scalers, the R² metric and the
    seeded 80/20 split (samples are feature row and target together). *)
Class Sklearn : Type := {
  estimator : Type;
  scaler : Type;
  fit : model_kind -> list (list float64) -> list Q -> estimator;
  predict : estimator -> list float64 -> float64;
  scaler_fit : list (list float64) -> scaler;
  transform : scaler -> list float64 -> list float64;
  r2_score : list Q -> list float64 -> Q;
  train_test_split :
    list (list float64 * Q) -> list (list float64 * Q) * list (list float64 * Q)
}.

(** numpy: the constant [np.pi] and the functions [np.sin], [np.cos] and the
    square root used by the sample standard deviation. *)
Class Numpy : Type := {
  np_pi : Q;
  np_sin : Q -> Q;
  np_cos : Q -> Q;
  np_sqrt : Q -> Q
}.

(** The ambient state read by the predictor: numpy's global random generator
    (a tape of standard draws and a cursor) and the wall clock (successive
    readings of [datetime.now()] and a cursor). *)
Record World : Type := mk_World {
  rng_tape : nat -> Q;
  rng_pos : nat;
  clock : nat -> datetime;
  clock_pos : nat
}.

(** [np.random.normal(loc, scale)] *)
Definition random_normal (loc scale : Q) (w : World) : Q * World :=
  ((loc + scale * rng_tape w (rng_pos w))%Q,
   mk_World (rng_tape w) (S (rng_pos w)) (clock w) (clock_pos w)).

(** [np.random.uniform(low, high)] *)
Definition random_uniform (low high : Q) (w : World) : Q * World :=
  ((low + (high - low) * rng_tape w (rng_pos w))%Q,
   mk_World (rng_tape w) (S (rng_pos w)) (clock w) (clock_pos w)).

(** [datetime.now()] *)
Definition now (w : World) : datetime * World :=
  (clock w (clock_pos w),
   mk_World (rng_tape w) (rng_pos w) (clock w) (S (clock_pos w))).

(** ** Series reductions *)

Definition Qsum (l : list Q) : Q := foldr Qplus 0%Q l.

Definition Qlen (l : list Q) : Q := inject_Z (Z.of_nat (length l)).

(** [Series.mean()]: [NaN] on an empty series. *)
Definition mean (l : list Q) : float64 :=
  match l with
  | [] => NaN
  | _ => Fin (Qsum l / Qlen l)
  end.

(** [Series.tail(n)] *)
Definition tail {A} (n : nat) (l : list A) : list A := drop (length l - n) l.

(** [Series.std()]: sample standard deviation, [NaN] below two points. *)
Definition std `{Numpy} (l : list Q) : float64 :=
  match l with
  | [] | [_] => NaN
  | _ =>
      let m := (Qsum l / Qlen l)%Q in
      let ss := Qsum (map (fun x => (x - m) * (x - m))%Q l) in
      Fin (np_sqrt (ss / (Qlen l - 1)))
  end.

(** [Series.shift(k)] *)
Definition shift (k : nat) (l : list Q) : list float64 :=
  take (length l) (replicate k NaN ++ map Fin l).

(** [Series.rolling(window=w).mean()] *)
Definition rolling_mean (w : nat) (l : list Q) : list float64 :=
  map (fun i => if decide (S i < w)%nat then NaN
                else mean (take w (drop (S i - w) l)))
      (seq 0 (length l)).

(** ** Feature engineering (training table) *)

(** A row of the working table of [_train_crop_model]: the target and the
    thirteen derived columns. *)
Record Row : Type := mk_Row {
  row_price : Q;
  row_year : float64;
  row_month : float64;
  row_day : float64;
  row_dayofyear : float64;
  row_weekday : float64;
  row_quarter : float64;
  row_sin_dayofyear : float64;
  row_cos_dayofyear : float64;
  row_price_lag_1 : float64;
  row_price_lag_7 : float64;
  row_price_lag_30 : float64;
  row_price_ma_7 : float64;
  row_price_ma_30 : float64
}.

(** [data[name]] on one row. *)
Definition column (name : string) (r : Row) : float64 :=
  if String.eqb name "year" then row_year r
  else if String.eqb name "month" then row_month r
  else if String.eqb name "day" then row_day r
  else if String.eqb name "dayofyear" then row_dayofyear r
  else if String.eqb name "weekday" then row_weekday r
  else if String.eqb name "quarter" then row_quarter r
  else if String.eqb name "sin_dayofyear" then row_sin_dayofyear r
  else if String.eqb name "cos_dayofyear" then row_cos_dayofyear r
  else if String.eqb name "price_lag_1" then row_price_lag_1 r
  else if String.eqb name "price_lag_7" then row_price_lag_7 r
  else if String.eqb name "price_lag_30" then row_price_lag_30 r
  else if String.eqb name "price_ma_7" then row_price_ma_7 r
  else if String.eqb name "price_ma_30" then row_price_ma_30 r
  else NaN.

Definition feature_columns : list string :=
  ["year"; "month"; "day"; "dayofyear"; "weekday"; "quarter";
   "sin_dayofyear"; "cos_dayofyear"; "price_lag_1"; "price_lag_7";
   "price_lag_30"; "price_ma_7"; "price_ma_30"].

(** [np.sin(2 * np.pi * dayofyear / 365)] and its cosine twin. *)
Definition sin_doy `{Numpy} (doy : Z) : float64 :=
  Fin (np_sin (2 * np_pi * inject_Z doy / 365)).
Definition cos_doy `{Numpy} (doy : Z) : float64 :=
  Fin (np_cos (2 * np_pi * inject_Z doy / 365)).

Definition at_index (col : list float64) (i : nat) : float64 :=
  default NaN (col !! i).

(** The table after the feature-engineering assignments, before [dropna]. *)
Definition feature_table `{Numpy} (df : DataFrame) : list Row :=
  let prices := map price df in
  let lag_1 := shift 1 prices in
  let lag_7 := shift 7 prices in
  let lag_30 := shift 30 prices in
  let ma_7 := rolling_mean 7 prices in
  let ma_30 := rolling_mean 30 prices in
  imap (fun i r =>
          let d := date r in
          mk_Row (price r)
                 (of_int (year d)) (of_int (month d)) (of_int (day d))
                 (of_int (dayofyear d)) (of_int (weekday d)) (of_int (quarter d))
                 (sin_doy (dayofyear d)) (cos_doy (dayofyear d))
                 (at_index lag_1 i) (at_index lag_7 i) (at_index lag_30 i)
                 (at_index ma_7 i) (at_index ma_30 i))
       df.

Definition has_nan (r : Row) : bool :=
  existsb (fun c => is_nan (column c r)) feature_columns.

(** [data.dropna()] *)
Definition dropna (t : list Row) : list Row :=
  List.filter (fun r => negb (has_nan r)) t.

(** [data[feature_columns]] and [data['price']], row by row. *)
Definition sample_of (r : Row) : list float64 * Q :=
  (map (fun c => column c r) feature_columns, row_price r).

(** The valid FeatureRows of a series. *)
Definition valid_rows `{Numpy} (df : DataFrame) : list Row :=
  dropna (feature_table df).

(** ** The predictor *)

(** A [LabelEncoder]; the predictor keeps a dictionary of them and never
    fits one. *)
Inductive LabelEncoder : Type := mk_LabelEncoder.

(** The SQLite file behind [db_path]: the rows of table [market_prices], and
    whether the file accepts writes. *)
Record Database : Type := mk_Database {
  market_prices : list PriceData;
  db_writable : bool
}.

Section Predictor.
Context `{SK : Sklearn} `{NP : Numpy}.

Record MarketPricePredictor : Type := mk_Predictor {
  db : Database;
  models : gmap string estimator;
  scalers : gmap string scaler;
  label_encoders : gmap string LabelEncoder;
  historical_data : gmap string DataFrame
}.

Definition set_registry (st : MarketPricePredictor)
    (ms : gmap string estimator) (ss : gmap string scaler) : MarketPricePredictor :=
  mk_Predictor (db st) ms ss (label_encoders st) (historical_data st).

(** *** Model training and selection *)

Record Split : Type := mk_Split {
  X_train : list (list float64);
  X_test : list (list float64);
  y_train : list Q;
  y_test : list Q;
  X_train_scaled : list (list float64);
  X_test_scaled : list (list float64)
}.

(** The dictionary [models] of the training loop, in insertion order. *)
Definition candidates : list (string * model_kind) :=
  [("random_forest", RandomForestRegressor);
   ("gradient_boosting", GradientBoostingRegressor);
   ("linear_regression", LinearRegression)].

(** One iteration of the loop up to [score = r2_score(y_test, y_pred)]. *)
Definition fit_and_score (sp : Split) (cand : string * model_kind) : estimator * Q :=
  if String.eqb (fst cand) "linear_regression" then
    let m := fit (snd cand) (X_train_scaled sp) (y_train sp) in
    (m, r2_score (y_test sp) (map (predict m) (X_test_scaled sp)))
  else
    let m := fit (snd cand) (X_train sp) (y_train sp) in
    (m, r2_score (y_test sp) (map (predict m) (X_test sp))).

Record Best : Type := mk_Best {
  best_model : option estimator;
  best_score : float64;
  best_model_name : option string
}.

Definition select_step (sp : Split) (b : Best) (cand : string * model_kind) : Best :=
  let ms := fit_and_score sp cand in
  if fgt (Fin (snd ms)) (best_score b)
  then mk_Best (Some (fst ms)) (Fin (snd ms)) (Some (fst cand))
  else b.

Definition select_best (sp : Split) : Best :=
  fold_left (select_step sp) candidates (mk_Best None NInf None).

(** The split and the scaler fitted on its training part. *)
Definition make_split (data : list Row) : Split * scaler :=
  let parts := train_test_split (map sample_of data) in
  let xtr := map fst (fst parts) in
  let xte := map fst (snd parts) in
  let sc := scaler_fit xtr in
  (mk_Split xtr xte (map snd (fst parts)) (map snd (snd parts))
            (map (transform sc) xtr) (map (transform sc) xte),
   sc).

(** [_train_crop_model]. An exception anywhere in the body is logged and the
    call returns; here that is the missing-commodity [KeyError]. The last
    branch ([best_model] still [None] after the loop) is never taken, see
    [select_best_model_is_Some]. *)
Definition _train_crop_model (crop : string) (st : MarketPricePredictor)
    : MarketPricePredictor :=
  match historical_data st !! crop with
  | None => st
  | Some df =>
      let data := valid_rows df in
      if decide (length data < 100)%nat then st
      else
        let ssc := make_split data in
        match best_model (select_best (fst ssc)) with
        | Some m => set_registry st (<[crop := m]> (models st))
                                    (<[crop := snd ssc]> (scalers st))
        | None => st
        end
  end.

(** [load_historical_data], given the freshly generated history [hd] (one
    entry per commodity, in dictionary order): store it, then train every
    commodity in that order. *)
Definition load_historical_data (hd : list (string * DataFrame))
    (st : MarketPricePredictor) : MarketPricePredictor :=
  let st0 := mk_Predictor (db st) (models st) (scalers st) (label_encoders st)
                          (list_to_map hd) in
  fold_left (fun s c => _train_crop_model c s) (map fst hd) st0.

(** [__init__]: empty registries, then [load_historical_data]. *)
Definition init (database : Database) (hd : list (string * DataFrame))
    : MarketPricePredictor :=
  load_historical_data hd (mk_Predictor database ∅ ∅ ∅ ∅).

(** *** Prediction *)

(** A lag feature of the prediction vector: [iloc[-k]] of the recent prices
    when there are at least [k] of them, their mean otherwise. *)
Definition price_lag (k : nat) (recent : list Q) : float64 :=
  if decide (k <= length recent)%nat
  then match recent !! (length recent - k)%nat with
       | Some p => Fin p
       | None => NaN
       end
  else mean recent.

(** [_prepare_prediction_features]; [KeyError] when the commodity has no
    history. *)
Definition _prepare_prediction_features (st : MarketPricePredictor)
    (crop : string) (d : datetime) : result (list float64) :=
  match historical_data st !! crop with
  | None => Raise (KeyError crop)
  | Some df =>
      let recent := map price (tail 30 df) in
      Ok [of_int (year d); of_int (month d); of_int (day d);
          of_int (dayofyear d); of_int (weekday d); of_int ((month d - 1) / 3 + 1);
          sin_doy (dayofyear d); cos_doy (dayofyear d);
          price_lag 1 recent; price_lag 7 recent; price_lag 30 recent;
          mean (tail 7 recent); mean (tail 30 recent)]
  end.

Definition py_min (a b : Q) : Q := if Qltb b a then b else a.
Definition py_max (a b : Q) : Q := if Qltb a b then b else a.

Definition base_confidence (data_points : nat) : Q :=
  if decide (1000 < data_points)%nat then 85 # 100
  else if decide (500 < data_points)%nat then 75 # 100
  else 65 # 100.

(** [_calculate_confidence], for a commodity with history [df]. *)
Definition _calculate_confidence (df : DataFrame) (w : World) : Q * World :=
  let nz := random_normal 0 (5 # 100) w in
  (py_max (5 # 10) (py_min (95 # 100) (base_confidence (length df) + fst nz)%Q),
   snd nz).

Definition seasonal_demand (m : Z) : Q :=
  if existsb (Z.eqb m) [6; 7; 8; 9; 10] then 8 # 10
  else if existsb (Z.eqb m) [11; 12; 1; 2] then 12 # 10
  else 1.

Definition price_trend (recent_prices : list Q) : float64 :=
  if decide (1 < length recent_prices)%nat then
    match last recent_prices, head recent_prices with
    | Some p_last, Some p_first => fdiv (Fin (p_last - p_first)) (Fin p_first)
    | _, _ => NaN
    end
  else Fin 0.

Definition market_volatility (recent_prices : list Q) : float64 :=
  let price_std := std recent_prices in
  let price_mean := mean recent_prices in
  if fgt price_mean (Fin 0) then fdiv price_std price_mean else Fin 0.

(** [_analyze_prediction_factors], for a commodity with history [df]. *)
Definition _analyze_prediction_factors (df : DataFrame) (d : datetime) (w : World)
    : gmap string float64 * World :=
  let recent_prices := tail 30 (map price df) in
  let su := random_uniform (8 # 10) (12 # 10) w in
  let de := random_uniform (9 # 10) (11 # 10) (snd su) in
  (<["demand_pressure" := Fin (fst de)]>
     (<["supply_pressure" := Fin (fst su)]>
        (<["market_volatility" := market_volatility recent_prices]>
           (<["price_trend" := price_trend recent_prices]>
              (<["seasonal_demand" := Fin (seasonal_demand (month d))]> ∅)))),
   snd de).

Definition factor (fs : gmap string float64) (k : string) : float64 :=
  default NaN (fs !! k).

(** [" | ".join(recommendations)] *)
Fixpoint join (sep : string) (l : list string) : string :=
  match l with
  | [] => ""
  | [x] => x
  | x :: rest => x +:+ sep +:+ join sep rest
  end.

(** [_generate_price_recommendation] *)
Definition _generate_price_recommendation (fs : gmap string float64) : string :=
  let trend :=
    if fgt (factor fs "price_trend") (Fin (1 # 10)) then
      ["Prices are trending upward - consider holding your produce"]
    else if flt (factor fs "price_trend") (Fin (- (1 # 10))) then
      ["Prices are declining - consider selling soon"]
    else ["Prices are stable - monitor market conditions"] in
  let seasonal :=
    if fgt (factor fs "seasonal_demand") (Fin (11 # 10)) then
      ["High seasonal demand expected - good time to sell"]
    else if flt (factor fs "seasonal_demand") (Fin (9 # 10)) then
      ["Low seasonal demand - consider storing if possible"]
    else [] in
  let volatility :=
    if fgt (factor fs "market_volatility") (Fin (2 # 10)) then
      ["High market volatility - consider selling in smaller batches"]
    else ["Stable market conditions - normal selling strategy recommended"] in
  join " | " (trend ++ seasonal ++ volatility).

(** [predict_price]. The default date reads the clock first; the registry is
    checked before anything else is touched; exceptions are logged and
    re-raised. *)
Definition predict_price (st : MarketPricePredictor) (crop : string)
    (date_arg : option datetime) (w : World) : result PricePrediction * World :=
  let dw := match date_arg with
            | Some d => (d, w)
            | None => let nw := now w in (dt_add (fst nw) (mk_timedelta 1), snd nw)
            end in
  let d := fst dw in
  let w1 := snd dw in
  match models st !! crop with
  | None => (Raise (ModelUnavailable crop), w1)
  | Some model =>
      match historical_data st !! crop, _prepare_prediction_features st crop d with
      | Some df, Ok features =>
          match scalers st !! crop with
          | None => (Raise (KeyError crop), w1)
          | Some sc =>
              let features_scaled := transform sc features in
              let price_hat := predict model features_scaled in
              let cw := _calculate_confidence df w1 in
              let fw := _analyze_prediction_factors df d (snd cw) in
              let rec_text := _generate_price_recommendation (fst fw) in
              (Ok (mk_PricePrediction crop (round2 price_hat) (fst cw) d (fst fw) rec_text),
               snd fw)
          end
      | _, Raise e => (Raise e, w1)
      | None, _ => (Raise (KeyError crop), w1)
      end
  end.

(** [get_price_forecast]: the loop body from iteration [i] on, [n] iterations
    left. A failing prediction aborts the whole forecast. *)
Fixpoint forecast_loop (st : MarketPricePredictor) (crop : string)
    (i : Z) (n : nat) (w : World) : result (list PricePrediction) * World :=
  match n with
  | O => (Ok [], w)
  | S n' =>
      let nw := now w in
      let d := dt_add (fst nw) (mk_timedelta (i + 1)) in
      match predict_price st crop (Some d) (snd nw) with
      | (Ok p, w') =>
          match forecast_loop st crop (i + 1) n' w' with
          | (Ok ps, w'') => (Ok (p :: ps), w'')
          | (Raise e, w'') => (Raise e, w'')
          end
      | (Raise e, w') => (Raise e, w')
      end
  end.

Definition get_price_forecast (st : MarketPricePredictor) (crop : string)
    (days : Z) (w : World) : result (list PricePrediction) * World :=
  forecast_loop st crop 0 (Z.to_nat days) w.

(** *** Recording a new observation *)

(** [add_price_data]: one INSERT into table [market_prices], the date column
    holding [price_data.date.date()]; a database error is logged. *)
Definition add_price_data (pd : PriceData) (st : MarketPricePredictor)
    : MarketPricePredictor :=
  if db_writable (db st) then
    let stored := mk_PriceData (crop_name pd) (market_name pd) (price pd)
                    (price_unit pd) (at_midnight (toordinal (date pd)))
                    (quality pd) (source pd) in
    mk_Predictor (mk_Database (market_prices (db st) ++ [stored]) true)
                 (models st) (scalers st) (label_encoders st) (historical_data st)
  else st.

(** *** Persistence *)

(** What a file can hold once unpickled: a dictionary, of which only the
    three keys the predictor reads matter (an absent key is [None]), or
    anything else. *)
Inductive Pickle : Type :=
| PDict (p_models : option (gmap string estimator))
        (p_scalers : option (gmap string scaler))
        (p_label_encoders : option (gmap string LabelEncoder))
| PGarbage.

(** The external store: file contents by path, and the paths that cannot be
    written. *)
Record FileSystem : Type := mk_FileSystem {
  files : gmap string Pickle;
  unwritable : gset string
}.

(** [save_models]: [joblib.dump] of the three dictionaries; a failed write is
    logged and changes nothing. *)
Definition save_models (st : MarketPricePredictor) (filepath : string)
    (fs : FileSystem) : FileSystem :=
  if decide (filepath ∈ unwritable fs) then fs
  else mk_FileSystem
         (<[filepath := PDict (Some (models st)) (Some (scalers st))
                              (Some (label_encoders st))]> (files fs))
         (unwritable fs).

(** [load_models]: the three assignments run in order inside one [try];
    the first failing step (unreadable file, missing key) is logged and ends
    the call, keeping the assignments already made. *)
Definition load_models (filepath : string) (fs : FileSystem)
    (st : MarketPricePredictor) : MarketPricePredictor :=
  match files fs !! filepath with
  | None | Some PGarbage => st
  | Some (PDict None _ _) => st
  | Some (PDict (Some ms) None _) =>
      mk_Predictor (db st) ms (scalers st) (label_encoders st) (historical_data st)
  | Some (PDict (Some ms) (Some ss) None) =>
      mk_Predictor (db st) ms ss (label_encoders st) (historical_data st)
  | Some (PDict (Some ms) (Some ss) (Some les)) =>
      mk_Predictor (db st) ms ss les (historical_data st)
  end.

(** *** Vocabulary of the statements *)

(** The price observed on calendar day [ord], if any. *)
Definition price_on (df : DataFrame) (ord : Z) : option Q :=
  price <$> List.find (fun r => toordinal (date r) =? ord) df.

(** One observation per calendar day, the first on day [start]. *)
Definition daily_from (start : Z) (df : DataFrame) : Prop :=
  forall (i : nat) (r : PriceData),
    df !! i = Some r -> toordinal (date r) = start + Z.of_nat i.

(** The lag features: distance in days, position in the prediction vector,
    and training column. *)
Definition lag_features : list (nat * nat * string) :=
  [(1%nat, 8%nat, "price_lag_1"); (7%nat, 9%nat, "price_lag_7");
   (30%nat, 10%nat, "price_lag_30")].

(** Two outcomes of [predict_price] that agree on everything but the
    confidence and the two pressure factors: the same error, or predictions
    with the same commodity, price, date, recommendation and other factors. *)
Definition same_up_to_draws (r1 r2 : result PricePrediction) : Prop :=
  match r1, r2 with
  | Ok p1, Ok p2 =>
      pred_crop_name p1 = pred_crop_name p2 /\
      predicted_price p1 = predicted_price p2 /\
      prediction_date p1 = prediction_date p2 /\
      recommendation p1 = recommendation p2 /\
      (forall k : string, k <> "supply_pressure" -> k <> "demand_pressure" ->
         factors p1 !! k = factors p2 !! k)
  | Raise e1, Raise e2 => e1 = e2
  | _, _ => False
  end.

(** [b] is what the loop holds after the candidates [pre]: nothing yet, or
    the first candidate of maximal score. *)
Definition holds_best (sp : Split) (pre : list (string * model_kind)) (b : Best) : Prop :=
  (pre = [] /\ b = mk_Best None NInf None) \/
  exists (i : nat) (c : string * model_kind),
    pre !! i = Some c /\
    b = mk_Best (Some (fst (fit_and_score sp c)))
                (Fin (snd (fit_and_score sp c))) (Some (fst c)) /\
    (forall j c', pre !! j = Some c' ->
       (snd (fit_and_score sp c') <= snd (fit_and_score sp c))%Q) /\
    (forall j c', (j < i)%nat -> pre !! j = Some c' ->
       (snd (fit_and_score sp c') < snd (fit_and_score sp c))%Q).

End Predictor.

(** ** A concrete instance, to run the definitions

    Small stand-ins for the library interfaces and one generated history.
    They serve to evaluate the predictor on concrete inputs; the general
    theorems below hold for every instance. *)

Module Fixture.

(** Persistence forecast, weekly mean, and the training mean: each reads one
    column of the row it is given. *)
Inductive toy_estimator : Type :=
| LastPrice
| WeeklyMean
| TrainMean (mu : Q).

(** A sum kept in lowest terms. *)
Definition Qsum_red (l : list Q) : Q := foldr (fun x acc => Qred (x + acc)) 0%Q l.

Definition toy_fit (k : model_kind) (X : list (list float64)) (y : list Q)
    : toy_estimator :=
  match k with
  | RandomForestRegressor => LastPrice
  | GradientBoostingRegressor => WeeklyMean
  | LinearRegression => TrainMean (Qred (Qsum_red y / Qlen y))
  end.

Definition toy_predict (m : toy_estimator) (x : list float64) : float64 :=
  match m with
  | LastPrice => at_index x 8
  | WeeklyMean => at_index x 11
  | TrainMean mu => Fin mu
  end.

Definition fin_or_zero (x : float64) : Q :=
  match x with Fin q => q | _ => 0%Q end.

(** Column means of the training rows; [transform] centres a row on them. *)
Definition toy_scaler_fit (X : list (list float64)) : list Q :=
  map (fun j => Qred (Qsum_red (map (fun row => fin_or_zero (at_index row j)) X)
                      / inject_Z (Z.of_nat (length X))))
      (seq 0 (length feature_columns)).

Definition toy_transform (sc : list Q) (x : list float64) : list float64 :=
  imap (fun j v => match v with
                   | Fin q => Fin (Qred (q - default 0%Q (sc !! j)))
                   | other => other
                   end) x.

(** R² = 1 - SS_res / SS_tot, with the finite values scikit-learn substitutes
    when the targets are constant. *)
Definition toy_r2_score (y_true : list Q) (y_pred : list float64) : Q :=
  let m := Qred (Qsum_red y_true / Qlen y_true) in
  let ss_tot := Qsum_red (map (fun y => (y - m) * (y - m))%Q y_true) in
  let ss_res := Qsum_red (zip_with (fun y p => (y - fin_or_zero p) * (y - fin_or_zero p))%Q
                                   y_true y_pred) in
  if Qeq_bool ss_tot 0 then (if Qeq_bool ss_res 0 then 1%Q else 0%Q)
  else Qred (1 - ss_res / ss_tot).

(** Every fifth sample is held out. *)
Definition toy_split {A} (l : list A) : list A * list A :=
  (omap id (imap (fun i a => if (i mod 5 =? 4)%nat then None else Some a) l),
   omap id (imap (fun i a => if (i mod 5 =? 4)%nat then Some a else None) l)).

#[export] Instance toy_sklearn : Sklearn := {|
  estimator := toy_estimator;
  scaler := list Q;
  fit := toy_fit;
  predict := toy_predict;
  scaler_fit := toy_scaler_fit;
  transform := toy_transform;
  r2_score := toy_r2_score;
  train_test_split := toy_split
|}.

(** Truncation to three decimals. *)
Definition milli (q : Q) : Q := (inject_Z (Qfloor (q * 1000)) / 1000)%Q.

(** Coarse rational stand-ins for π, sine, cosine and the square root. *)
#[export] Instance toy_numpy : Numpy := {|
  np_pi := 22 # 7;
  np_sin := fun x => milli (x - x * x * x / 6);
  np_cos := fun x => milli (1 - x * x / 2);
  np_sqrt := fun x => Qred ((x + 1) / 2)
|}.

(** [n] daily observations from 2020-01-01, the price rising by one a day
    from 30. *)
Definition rising_series (crop : string) (n : nat) : DataFrame :=
  map (fun i => mk_PriceData crop "Kerala Market"
                  (inject_Z (30 + Z.of_nat i))
                  "kg" (at_midnight (ord_2020_01_01 + Z.of_nat i))
                  "Grade A" "Historical Data")
      (seq 0 n).

Definition rice : DataFrame := rising_series "Rice" 130.
Definition saffron : DataFrame := rising_series "Saffron" 40.

Definition market_db : Database := mk_Database [] true.

Definition histories : list (string * DataFrame) :=
  [("Rice", rice); ("Saffron", saffron)].

(** A predictor constructed over the two histories. *)
Definition trained : MarketPricePredictor := init market_db histories.

(** The scaler fitted on the training rows of [rice], evaluated. *)
Definition rice_scaler : list Q :=
  Eval vm_compute in snd (make_split (valid_rows rice)).

(** What [trained] evaluates to, see [trained_value_eq]. *)
Definition trained_value : MarketPricePredictor :=
  mk_Predictor market_db {["Rice" := LastPrice]} {["Rice" := rice_scaler]} ∅
               (list_to_map histories).

(** The day after the last observation of [rice], at midnight, and the day
    after that. *)
Definition next_day : datetime := at_midnight (ord_2020_01_01 + 130).
Definition day_after_next : datetime := at_midnight (ord_2020_01_01 + 131).

(** Two random tapes and two clocks. *)
Definition tape_zero : nat -> Q := fun _ => 0%Q.
Definition tape_ramp : nat -> Q := fun n => (inject_Z (Z.of_nat (S n)) / 4)%Q.

Definition frozen_clock : nat -> datetime := fun _ => next_day.


Definition world_zero : World := mk_World tape_zero 0 frozen_clock 0.
Definition world_ramp : World := mk_World tape_ramp 0 frozen_clock 0.

(** An empty store, and one whose file holds a dictionary with a models
    entry (an empty registry) and nothing else. *)
Definition empty_fs : FileSystem := mk_FileSystem ∅ ∅.

Definition partial_fs : FileSystem :=
  mk_FileSystem {["models.pkl" := PDict (Some ∅) None None]} ∅.

(** A predictor with empty registries over the histories of [trained]. *)
Definition fresh : MarketPricePredictor :=
  mk_Predictor market_db ∅ ∅ ∅ (list_to_map histories).

(** The registry of [trained] in a predictor whose history of "Rice" is ten
    days longer. *)
Definition other : MarketPricePredictor :=
  mk_Predictor market_db ∅ ∅ ∅ (list_to_map [("Rice", rising_series "Rice" 140)]).

End Fixture.

(** ** The generated history, construction, and market recommendations *)

(** [pd.date_range(start, end, freq='D')], by ordinals, both ends included. *)
Definition date_range (first last : Z) : list datetime :=
  map (fun i => at_midnight (first + Z.of_nat i))
      (seq 0 (Z.to_nat (last - first + 1))).

(** 2024-12-31, the last day of the generated history. *)
Definition ord_2024_12_31 : Z := 739251.

(** [round(x, 2)] on a finite float. *)
Definition round2_Q (q : Q) : Q := (inject_Z (round_half_even (q * 100)) / 100)%Q.

Section Generation.
Context `{SK : Sklearn} `{NP : Numpy}.

(** One iteration of the loop of [_generate_historical_prices]. *)
Definition generated_row (crop : string) (min_price max_price avg_price : Q)
    (d : datetime) (w : World) : PriceData * World :=
  let seasonal_factor :=
    (1 + (2 # 10) * np_sin (2 * np_pi * inject_Z (dayofyear d) / 365))%Q in
  let rf := random_normal 1 (1 # 10) w in
  let trend_factor := (1 + inject_Z (year d - 2020) * (2 # 100))%Q in
  let base_price := (avg_price * seasonal_factor * fst rf * trend_factor)%Q in
  let p := py_max min_price (py_min max_price base_price) in
  (mk_PriceData crop "Kerala Market" (round2_Q p) "kg" d "Grade A" "Historical Data",
   snd rf).

Fixpoint generate_rows (crop : string) (min_price max_price avg_price : Q)
    (dates : list datetime) (w : World) : DataFrame * World :=
  match dates with
  | [] => ([], w)
  | d :: rest =>
      let rw := generated_row crop min_price max_price avg_price d w in
      let more := generate_rows crop min_price max_price avg_price rest (snd rw) in
      (fst rw :: fst more, snd more)
  end.

(** [_generate_historical_prices] *)
Definition _generate_historical_prices (crop : string)
    (min_price max_price avg_price : Q) (w : World) : DataFrame * World :=
  generate_rows crop min_price max_price avg_price
                (date_range ord_2020_01_01 ord_2024_12_31) w.





End Generation.

(** *** Market recommendations *)

(** The entries of [insights['price_trends']] and
    [insights['seasonal_patterns']]. *)
Record Trend : Type := mk_Trend {
  trend_direction : string;
  trend_strength : float64;
  volatility : float64
}.

Record Pattern : Type := mk_Pattern {
  peak_month : Z;
  low_month : Z;
  seasonal_variation : float64
}.

(** The two dictionaries of [insights] that [_generate_market_recommendations]
    reads, in insertion order. *)
Record Insights : Type := mk_Insights {
  price_trends : list (string * Trend);
  seasonal_patterns : list (string * Pattern)
}.

Definition trend_sentences (upward_trends total_crops : nat) : list string :=
  if Qltb (inject_Z (Z.of_nat total_crops) * (7 # 10)) (inject_Z (Z.of_nat upward_trends))
  then ["Most crops showing upward price trends - favorable market conditions"]
  else if Qltb (inject_Z (Z.of_nat upward_trends)) (inject_Z (Z.of_nat total_crops) * (3 # 10))
  then ["Most crops showing downward price trends - consider holding produce"]
  else [].

(** [_generate_market_recommendations] *)
Definition _generate_market_recommendations (insights : Insights) (w : World)
    : list string * World :=
  let upward_trends :=
    length (List.filter (fun ct => String.eqb (trend_direction (snd ct)) "upward")
                        (price_trends insights)) in
  let total_crops := length (price_trends insights) in
  let high_volatility_crops :=
    map fst (List.filter (fun ct => fgt (volatility (snd ct)) (Fin 50))
                         (price_trends insights)) in
  let nw := now w in
  let current_month := month (fst nw) in
  let seasonal_crops :=
    map fst (List.filter (fun cp => peak_month (snd cp) =? current_month)
                         (seasonal_patterns insights)) in
  (trend_sentences upward_trends total_crops
   ++ (match high_volatility_crops with
       | [] => []
       | _ => ["High volatility detected in: " +:+ join ", " high_volatility_crops
               +:+ " - monitor closely"]
       end)
   ++ (match seasonal_crops with
       | [] => []
       | _ => ["Peak season for: " +:+ join ", " seasonal_crops
               +:+ " - optimal selling time"]
       end),
   snd nw).

(** The seasonal sentence of a price recommendation, by month of the
    prediction date. *)
Definition seasonal_sentence (m : Z) : list string :=
  if existsb (Z.eqb m) [6; 7; 8; 9; 10]
  then ["Low seasonal demand - consider storing if possible"]
  else if existsb (Z.eqb m) [11; 12; 1; 2]
  then ["High seasonal demand expected - good time to sell"]
  else [].

(** *** Market insights *)

(** [np.polyfit(range(len(y)), y, 1)[0]]: the slope of the least-squares line
    through the points (0, y0), (1, y1), ...; [None] when numpy raises. *)
Class Polyfit : Type := {
  polyfit_slope : list Q -> option float64
}.

(** An entry of [insights['market_overview']]. *)
Record Overview : Type := mk_Overview {
  current_price : float64;
  average_price : float64;
  price_change_percent : float64;
  price_range_min : float64;
  price_range_max : float64
}.

(** What can go wrong inside [get_market_insights]: [iloc[-1]] on an empty
    series, [np.polyfit], [idxmax] on an empty series. *)
Inductive insight_exn : Type :=
| IndexError
| PolyfitError
| IdxValueError.

(** The dictionary [get_market_insights] returns: the insights, or
    [{'error': str(e)}]. *)
Inductive MarketInsights : Type :=
| InsightsOk (market_overview : list (string * Overview)) (insights : Insights)
             (recommendations : list string)
| InsightsError (e : insight_exn).

(** A float times a positive constant. *)
Definition ftimes (a : float64) (k : Q) : float64 :=
  match a with
  | Fin q => Fin (q * k)
  | other => other
  end.

(** [abs(x)] *)
Definition fabs (a : float64) : float64 :=
  match a with
  | Fin q => Fin (if Qltb q 0 then - q else q)
  | NaN => NaN
  | PInf | NInf => PInf
  end.

(** [Series.max()] and [Series.min()] of the series [x :: l]. *)
Definition Qmaximum (x : Q) (l : list Q) : Q :=
  fold_left (fun a b => if Qltb a b then b else a) l x.
Definition Qminimum (x : Q) (l : list Q) : Q :=
  fold_left (fun a b => if Qltb b a then b else a) l x.

(** [d[k] = v] on a dictionary kept in insertion order. *)
Fixpoint dict_set {V} (k : string) (v : V) (d : list (string * V))
    : list (string * V) :=
  match d with
  | [] => [(k, v)]
  | (k', v') :: rest =>
      if String.eqb k k' then (k, v) :: rest else (k', v') :: dict_set k v rest
  end.

(** The keys of a [groupby] on the month: the months present, ascending. *)
Fixpoint insert_month (m : Z) (l : list Z) : list Z :=
  match l with
  | [] => [m]
  | x :: rest =>
      if m <? x then m :: l
      else if m =? x then l
      else x :: insert_month m rest
  end.

Definition month_keys (df : DataFrame) : list Z :=
  foldr insert_month [] (map (fun r => month (date r)) df).

(** [data.groupby(data['date'].dt.month)['price'].mean()] *)
Definition monthly_avg (df : DataFrame) : list (Z * Q) :=
  map (fun m =>
         let g := map price (List.filter (fun r => month (date r) =? m) df) in
         (m, (Qsum g / Qlen g)%Q))
      (month_keys df).

(** [Series.idxmax()] and [Series.idxmin()]: the label of the first extreme
    value; [None] for the [ValueError] on an empty series. *)
Definition idxmax (s : list (Z * Q)) : option Z :=
  match s with
  | [] => None
  | x :: rest =>
      Some (fst (fold_left (fun best y => if Qltb (snd best) (snd y) then y else best)
                           rest x))
  end.
Definition idxmin (s : list (Z * Q)) : option Z :=
  match s with
  | [] => None
  | x :: rest =>
      Some (fst (fold_left (fun best y => if Qltb (snd y) (snd best) then y else best)
                           rest x))
  end.

Section Analysis.
Context `{SK : Sklearn} `{NP : Numpy} `{PF : Polyfit}.

(** The body of the loop of [get_market_insights] for one commodity with
    history [df]: its overview, trend and seasonal pattern. *)
Definition analyse_crop (df : DataFrame)
    : insight_exn + (Overview * Trend * Pattern) :=
  let prices := map price df in
  match prices with
  | [] => inl IndexError
  | p0 :: ps =>
      let current := List.last ps p0 in
      let avg_price := (Qsum prices / Qlen prices)%Q in
      let price_change := ftimes (fdiv (Fin (current - avg_price)) (Fin avg_price)) 100 in
      let ov := mk_Overview (round2 (Fin current)) (round2 (Fin avg_price))
                            (round2 price_change)
                            (round2 (Fin (Qminimum p0 ps)))
                            (round2 (Fin (Qmaximum p0 ps))) in
      match polyfit_slope (tail 30 prices) with
      | None => inl PolyfitError
      | Some trend_slope =>
          let tr := mk_Trend (if fgt trend_slope (Fin 0) then "upward" else "downward")
                             (fabs trend_slope) (round2 (std prices)) in
          let monthly := monthly_avg df in
          match idxmax monthly, idxmin monthly, map snd monthly with
          | Some peak, Some low, v0 :: vs =>
              let variation :=
                ftimes (fdiv (Fin (Qmaximum v0 vs - Qminimum v0 vs))
                             (Fin (Qsum (v0 :: vs) / Qlen (v0 :: vs))))
                       100 in
              inr (ov, tr, mk_Pattern peak low (round2 variation))
          | _, _, _ => inl IdxValueError
          end
      end
  end.

(** The loop over [crops_to_analyze]; a commodity without history is skipped,
    an exception ends the loop. *)
Fixpoint analyse_all (st : MarketPricePredictor) (crops : list string)
    (acc : list (string * Overview) * Insights)
    : insight_exn + (list (string * Overview) * Insights) :=
  match crops with
  | [] => inr acc
  | crop :: rest =>
      match historical_data st !! crop with
      | None => analyse_all st rest acc
      | Some df =>
          match analyse_crop df with
          | inl e => inl e
          | inr (ov, tr, pat) =>
              analyse_all st rest
                (dict_set crop ov (fst acc),
                 mk_Insights (dict_set crop tr (price_trends (snd acc)))
                             (dict_set crop pat (seasonal_patterns (snd acc))))
          end
      end
  end.

(** [[crop_name] if crop_name else list(self.historical_data.keys())], where
    [keys] is [list(self.historical_data.keys())]: the insertion order of the
    dictionary of histories, which the map does not record. An absent or
    empty [crop_name] selects all of them. *)
Definition crops_to_analyze (keys : list string) (crop_name : option string)
    : list string :=
  match crop_name with
  | Some c => if String.eqb c "" then keys else [c]
  | None => keys
  end.

(** [get_market_insights]; an exception becomes the error dictionary, before
    the clock is read. *)
Definition get_market_insights (st : MarketPricePredictor) (keys : list string)
    (crop_name : option string) (w : World) : MarketInsights * World :=
  match analyse_all st (crops_to_analyze keys crop_name) ([], mk_Insights [] []) with
  | inl e => (InsightsError e, w)
  | inr ovi =>
      let rw := _generate_market_recommendations (snd ovi) w in
      (InsightsOk (fst ovi) (snd ovi) (fst rw), snd rw)
  end.

End Analysis.

(** *** More of the concrete instance *)

Module MoreFixture.
Import Fixture.


(** The prediction for "Rice" and [next_day] from [world_zero], evaluated
    (see [rice_prediction_eq]). *)
Definition rice_prediction : PricePrediction :=
  Eval vm_compute in
    match fst (predict_price trained_value "Rice" (Some next_day) world_zero) with
    | Ok p => p
    | Raise _ => mk_PricePrediction "" NaN 0 next_day ∅ ""
    end.

(** The prediction vector for "Rice" and [next_day], evaluated. *)
Definition rice_features : list float64 :=
  Eval vm_compute in
    match _prepare_prediction_features trained_value "Rice" next_day with
    | Ok fs => fs
    | Raise _ => []
    end.

End MoreFixture.

(** *** The concrete instance, continued *)

Module InsightsFixture.
Import Fixture.

(** The least-squares slope over x = 0, 1, ..., n - 1; nothing below two
    points. *)
Definition toy_slope (y : list Q) : option float64 :=
  match y with
  | [] | [_] => None
  | _ =>
      let n := Qlen y in
      let xs := map (fun i => inject_Z (Z.of_nat i)) (seq 0 (length y)) in
      let sx := Qsum xs in
      let sy := Qsum y in
      let sxy := Qsum (zip_with Qmult xs y) in
      let sxx := Qsum (zip_with Qmult xs xs) in
      Some (Fin (Qred ((n * sxy - sx * sy) / (n * sxx - sx * sx))))
  end.

#[export] Instance toy_polyfit : Polyfit := {| polyfit_slope := toy_slope |}.

(** A predictor over two histories of forty and thirty-five days. *)
Definition small : MarketPricePredictor :=
  mk_Predictor market_db ∅ ∅ ∅
    (list_to_map [("Rice", rising_series "Rice" 40);
                  ("Coffee", rising_series "Coffee" 35)]).

(** The three parts of a report. *)
Definition overview_of (r : MarketInsights) : list (string * Overview) :=
  match r with InsightsOk ov _ _ => ov | InsightsError _ => [] end.
Definition insights_of (r : MarketInsights) : Insights :=
  match r with InsightsOk _ ins _ => ins | InsightsError _ => mk_Insights [] [] end.
Definition recommendations_of (r : MarketInsights) : list string :=
  match r with InsightsOk _ _ recs => recs | InsightsError _ => [] end.

(** The report on "Rice" and the report on all commodities, evaluated. *)
Definition rice_report : MarketInsights :=
  Eval vm_compute in fst (get_market_insights small [] (Some "Rice") world_zero).

Definition full_report : MarketInsights :=
  Eval vm_compute in
    fst (get_market_insights small ["Rice"; "Coffee"] None world_zero).

End InsightsFixture.

(** * Properties *)

(** ** Calendar *)

Example civil_2020_01_01 : civil ord_2020_01_01 = (2020, 1, 1).
Proof. reflexivity. Qed.

Example civil_2024_12_31 : civil (ord_2020_01_01 + 1826) = (2024, 12, 31).
Proof. reflexivity. Qed.

Example calendar_2024_02_29 :
  let d := at_midnight (ord_2020_01_01 + 1520) in
  (year d, month d, day d, dayofyear d, weekday d, quarter d) = (2024, 2, 29, 60, 3, 1).
Proof. reflexivity. Qed.

(** ** Comparisons *)

Lemma Qltb_lt (a b : Q) : Qltb a b = true <-> (a < b)%Q.
Proof.
  unfold Qltb. rewrite negb_true_iff. split.
  - intros Hb. apply Qnot_le_lt. intros Hle.
    apply Qle_bool_iff in Hle. congruence.
  - intros Hlt. destruct (Qle_bool b a) eqn:E; [|reflexivity].
    apply Qle_bool_iff in E. exfalso. exact (Qlt_not_le _ _ Hlt E).
Qed.

Lemma Qltb_ge (a b : Q) : Qltb a b = false <-> (b <= a)%Q.
Proof.
  unfold Qltb. rewrite negb_false_iff. apply Qle_bool_iff.
Qed.

Lemma fgt_Fin_NInf (q : Q) : fgt (Fin q) NInf = true.
Proof. reflexivity. Qed.

Lemma fgt_Fin_Fin (a b : Q) : fgt (Fin a) (Fin b) = Qltb b a.
Proof. reflexivity. Qed.

Section Properties.
Context `{SK : Sklearn} `{NP : Numpy}.

(** ** Model selection *)

Lemma holds_best_step sp pre b c :
  holds_best sp pre b -> holds_best sp (pre ++ [c]) (select_step sp b c).
Proof.
  intros [[-> ->] | (i & c0 & Hi & -> & Hmax & Hfirst)].
  - right. exists 0%nat, c. unfold select_step. cbn [best_score].
    rewrite fgt_Fin_NInf. repeat split.
    + intros [|j] c' Hj; simpl in Hj; [|done].
      injection Hj as <-. apply Qle_refl.
    + intros j c' Hj. lia.
  - right. unfold select_step. cbn [best_score]. rewrite fgt_Fin_Fin.
    destruct (Qltb (snd (fit_and_score sp c0)) (snd (fit_and_score sp c))) eqn:E.
    + apply Qltb_lt in E.
      exists (length pre), c. repeat split.
      * by rewrite lookup_app_r, Nat.sub_diag by lia.
      * intros j c' Hj. apply lookup_app_Some in Hj as [Hj | [_ Hj]].
        -- apply Qle_trans with (snd (fit_and_score sp c0)); [eauto | by apply Qlt_le_weak].
        -- destruct (j - length pre)%nat; simpl in Hj; [|done].
           injection Hj as <-. apply Qle_refl.
      * intros j c' Hlt Hj. rewrite lookup_app_l in Hj by done.
        apply Qle_lt_trans with (snd (fit_and_score sp c0)); eauto.
    + apply Qltb_ge in E.
      exists i, c0. repeat split.
      * rewrite lookup_app_l; [done | by eapply lookup_lt_Some].
      * intros j c' Hj. apply lookup_app_Some in Hj as [Hj | [_ Hj]]; [eauto|].
        destruct (j - length pre)%nat; simpl in Hj; [|done].
        by injection Hj as <-.
      * intros j c' Hlt Hj. apply (Hfirst j c' Hlt).
        rewrite lookup_app_l in Hj; [done|].
        apply lookup_lt_Some in Hi. lia.
Qed.

Lemma holds_best_fold sp l : forall pre b,
  holds_best sp pre b -> holds_best sp (pre ++ l) (fold_left (select_step sp) l b).
Proof.
  induction l as [|c l IH]; intros pre b Hb; simpl.
  - by rewrite app_nil_r.
  - replace (pre ++ c :: l) with ((pre ++ [c]) ++ l) by (by rewrite <- app_assoc).
    apply IH. by apply holds_best_step.
Qed.

Lemma select_best_holds sp : holds_best sp candidates (select_best sp).
Proof.
  unfold select_best. apply (holds_best_fold sp candidates [] _).
  left. done.
Qed.

(** After the loop a model has been chosen: the assignment
    [self.models[crop_name] = best_model] never stores [None]. *)
Lemma select_best_model_is_Some sp : is_Some (best_model (select_best sp)).
Proof.
  destruct (select_best_holds sp) as [[Hnil _] | (i & c & _ & -> & _)].
  - discriminate Hnil.
  - by eexists.
Qed.

Lemma train_sufficient crop st df :
  historical_data st !! crop = Some df ->
  (100 <= length (valid_rows df))%nat ->
  exists m,
    best_model (select_best (fst (make_split (valid_rows df)))) = Some m /\
    _train_crop_model crop st =
      set_registry st (<[crop := m]> (models st))
                      (<[crop := snd (make_split (valid_rows df))]> (scalers st)).
Proof.
  intros Hdf Hlen. unfold _train_crop_model. rewrite Hdf.
  destruct (decide (length (valid_rows df) < 100)%nat) as [Hlt | _]; [lia|].
  destruct (select_best_model_is_Some (fst (make_split (valid_rows df)))) as [m Hm].
  exists m. by rewrite Hm.
Qed.


(** ** The skip rule *)

Lemma train_skip crop st df :
  historical_data st !! crop = Some df ->
  (length (valid_rows df) < 100)%nat ->
  _train_crop_model crop st = st.
Proof.
  intros Hdf Hlen. unfold _train_crop_model. rewrite Hdf.
  by destruct (decide (length (valid_rows df) < 100)%nat).
Qed.

Lemma train_historical_data crop st :
  historical_data (_train_crop_model crop st) = historical_data st.
Proof.
  unfold _train_crop_model.
  destruct (historical_data st !! crop) as [df|]; [|done].
  destruct (decide _); [done|].
  by destruct (best_model _).
Qed.

Lemma train_other_model crop c st :
  c <> crop ->
  models (_train_crop_model c st) !! crop = models st !! crop /\
  scalers (_train_crop_model c st) !! crop = scalers st !! crop.
Proof.
  intros Hne. unfold _train_crop_model.
  destruct (historical_data st !! c) as [df|]; [|done].
  destruct (decide _); [done|].
  destruct (best_model _); [|done].
  unfold set_registry; cbn [models scalers].
  by rewrite !lookup_insert_ne.
Qed.

Lemma predict_without_model st crop date_arg w :
  models st !! crop = None ->
  fst (predict_price st crop date_arg w) = Raise (ModelUnavailable crop).
Proof.
  intros Hm. unfold predict_price. by rewrite Hm.
Qed.

(** Training a list of commodities leaves a short-history commodity out of a
    registry that did not hold it. *)
Lemma train_all_skips crop df (cs : list string) : forall st,
  historical_data st !! crop = Some df ->
  (length (valid_rows df) < 100)%nat ->
  models st !! crop = None -> scalers st !! crop = None ->
  let st' := fold_left (fun s c => _train_crop_model c s) cs st in
  models st' !! crop = None /\ scalers st' !! crop = None.
Proof.
  induction cs as [|c cs IH]; intros st Hdf Hlen Hm Hs; simpl; [done|].
  apply IH; try done.
  - by rewrite train_historical_data.
  - destruct (decide (c = crop)) as [-> | Hne].
    + by rewrite (train_skip crop st df).
    + by rewrite (proj1 (train_other_model crop c st Hne)).
  - destruct (decide (c = crop)) as [-> | Hne].
    + by rewrite (train_skip crop st df).
    + by rewrite (proj2 (train_other_model crop c st Hne)).
Qed.

(** C2. For a commodity with fewer than 100 valid feature rows, training is
    skipped: the call changes nothing (no registry entry of any commodity is
    modified), a commodity that had no model still has none and every
    prediction on it raises the no-model error; in particular a newly
    constructed predictor has no model for it and cannot predict it. *)
Theorem C2_short_history_is_skipped (crop : string) (df : DataFrame) :
  (length (valid_rows df) < 100)%nat ->
  (forall st, historical_data st !! crop = Some df ->
     _train_crop_model crop st = st /\
     (models st !! crop = None ->
      models (_train_crop_model crop st) !! crop = None /\
      forall date_arg w,
        fst (predict_price (_train_crop_model crop st) crop date_arg w)
        = Raise (ModelUnavailable crop))) /\
  (forall database hd,
     (list_to_map hd : gmap string DataFrame) !! crop = Some df ->
     models (init database hd) !! crop = None /\
     scalers (init database hd) !! crop = None /\
     forall date_arg w,
       fst (predict_price (init database hd) crop date_arg w)
       = Raise (ModelUnavailable crop)).
Proof.
  intros Hlen. split.
  - intros st Hdf. rewrite (train_skip crop st df Hdf Hlen). split; [done|].
    intros Hm. split; [done|]. intros. by apply predict_without_model.
  - intros database hd Hdf.
    destruct (train_all_skips crop df (map fst hd)
                (mk_Predictor database ∅ ∅ ∅ (list_to_map hd))) as [Hm Hs];
      try done.
    unfold init, load_historical_data. cbn [db models scalers label_encoders].
    split; [done|]. split; [done|].
    intros. by apply predict_without_model.
Qed.

(** ** Prediction *)

Lemma prepare_features_Ok st crop d df :
  historical_data st !! crop = Some df ->
  exists features, _prepare_prediction_features st crop d = Ok features.
Proof.
  intros Hdf. unfold _prepare_prediction_features. rewrite Hdf. by eexists.
Qed.

(** The shape of a successful prediction for an explicit date. *)
Lemma predict_price_trained st crop d w m sc df features :
  models st !! crop = Some m ->
  scalers st !! crop = Some sc ->
  historical_data st !! crop = Some df ->
  _prepare_prediction_features st crop d = Ok features ->
  let cw := _calculate_confidence df w in
  let fw := _analyze_prediction_factors df d (snd cw) in
  predict_price st crop (Some d) w =
    (Ok (mk_PricePrediction crop (round2 (predict m (transform sc features)))
           (fst cw) d (fst fw) (_generate_price_recommendation (fst fw))),
     snd fw).
Proof.
  intros Hm Hs Hdf Hf. unfold predict_price. cbn [fst snd].
  by rewrite Hm, Hdf, Hf, Hs.
Qed.

(** A prediction reads the registry and the history, nothing else of the
    predictor. *)
Lemma predict_price_ext st1 st2 crop date_arg w :
  models st1 !! crop = models st2 !! crop ->
  scalers st1 !! crop = scalers st2 !! crop ->
  historical_data st1 !! crop = historical_data st2 !! crop ->
  predict_price st1 crop date_arg w = predict_price st2 crop date_arg w.
Proof.
  intros Hm Hs Hd. unfold predict_price, _prepare_prediction_features.
  by rewrite Hm, Hs, Hd.
Qed.

Lemma recommendation_ext (fs1 fs2 : gmap string float64) :
  fs1 !! "price_trend" = fs2 !! "price_trend" ->
  fs1 !! "seasonal_demand" = fs2 !! "seasonal_demand" ->
  fs1 !! "market_volatility" = fs2 !! "market_volatility" ->
  _generate_price_recommendation fs1 = _generate_price_recommendation fs2.
Proof.
  intros Ht Hs Hv. unfold _generate_price_recommendation, factor.
  by rewrite Ht, Hs, Hv.
Qed.

(** The factors other than the two pressure stubs do not depend on the
    random generator. *)
Lemma factors_away_from_stubs df d w1 w2 (k : string) :
  k <> "supply_pressure" -> k <> "demand_pressure" ->
  fst (_analyze_prediction_factors df d w1) !! k
  = fst (_analyze_prediction_factors df d w2) !! k.
Proof.
  intros Hs Hd. unfold _analyze_prediction_factors. cbn [fst].
  rewrite !(lookup_insert_ne _ "demand_pressure" k) by done.
  by rewrite !(lookup_insert_ne _ "supply_pressure" k) by done.
Qed.

Lemma predict_price_up_to_draws st1 st2 crop d w1 w2 :
  models st1 !! crop = models st2 !! crop ->
  scalers st1 !! crop = scalers st2 !! crop ->
  historical_data st1 !! crop = historical_data st2 !! crop ->
  same_up_to_draws (fst (predict_price st1 crop (Some d) w1))
                   (fst (predict_price st2 crop (Some d) w2)).
Proof.
  intros Hm Hs Hd.
  unfold predict_price, _prepare_prediction_features. cbn [fst snd].
  rewrite Hm, Hd, Hs.
  destruct (models st2 !! crop) as [m|]; [|done].
  destruct (historical_data st2 !! crop) as [df|]; [|done].
  destruct (scalers st2 !! crop) as [sc|]; [|done].
  cbn [fst same_up_to_draws pred_crop_name predicted_price prediction_date
       recommendation factors].
  split; [done|]. split; [done|]. split; [done|]. split.
  - apply recommendation_ext; by apply factors_away_from_stubs.
  - intros k Hk1 Hk2. by apply factors_away_from_stubs.
Qed.



(** ** Confidence *)

Lemma clamp_bounds (x : Q) :
  (1 # 2 <= py_max (5 # 10) (py_min (95 # 100) x))%Q /\
  (py_max (5 # 10) (py_min (95 # 100) x) <= 95 # 100)%Q.
Proof.
  unfold py_max, py_min.
  destruct (Qltb x (95 # 100)) eqn:E1.
  - destruct (Qltb (5 # 10) x) eqn:E2.
    + apply Qltb_lt in E1, E2. split.
      * apply Qlt_le_weak. eapply Qle_lt_trans; [|exact E2]. done.
      * by apply Qlt_le_weak.
    + split; done.
  - destruct (Qltb (5 # 10) (95 # 100)) eqn:E2; split; done.
Qed.

Lemma base_confidence_mono (n m : nat) :
  (n <= m)%nat -> (base_confidence n <= base_confidence m)%Q.
Proof.
  intros Hle. unfold base_confidence.
  repeat destruct (decide _); try lia; done.
Qed.

Lemma Ok_inj {A} (a b : A) : Ok a = Ok b -> a = b.
Proof. intros H. by injection H. Qed.

(** C4. The confidence of every returned prediction lies in [0.5, 0.95]; it is
    the clamped sum of a noise term and a base confidence that depends only
    on the length of the commodity's history and does not decrease when the
    history gets longer. *)
Theorem C4_confidence_in_range (st : MarketPricePredictor) (crop : string)
    (date_arg : option datetime) (w : World) (p : PricePrediction) :
  fst (predict_price st crop date_arg w) = Ok p ->
  (1 # 2 <= confidence p)%Q /\ (confidence p <= 95 # 100)%Q /\
  (exists df noise,
     historical_data st !! crop = Some df /\
     confidence p =
       py_max (5 # 10) (py_min (95 # 100) (base_confidence (length df) + noise)%Q)) /\
  (forall n m : nat, (n <= m)%nat -> (base_confidence n <= base_confidence m)%Q).
Proof.
  unfold predict_price, _prepare_prediction_features.
  set (dw := match date_arg with Some d => (d, w) | None => _ end).
  cbv zeta.
  destruct (models st !! crop) as [m|]; [|done].
  destruct (historical_data st !! crop) as [df|]; [|done].
  destruct (scalers st !! crop) as [sc|]; [|done].
  cbn [fst]. intros Heq. apply Ok_inj in Heq. subst p. cbn [confidence].
  unfold _calculate_confidence. cbn [fst].
  split; [apply clamp_bounds|]. split; [apply clamp_bounds|]. split.
  - by eexists _, _.
  - apply base_confidence_mono.
Qed.

(** ** Lag features *)

Lemma map_lookup {A B} (f : A -> B) (l : list A) (i : nat) :
  map f l !! i = f <$> l !! i.
Proof. exact (list_lookup_fmap f l i). Qed.

Lemma length_tail_ge {A} (n : nat) (l : list A) :
  (n <= length l)%nat -> length (tail n l) = n.
Proof. intros Hn. unfold tail. rewrite length_drop. lia. Qed.

Lemma lookup_tail {A} (n i : nat) (l : list A) :
  (n <= length l)%nat -> tail n l !! i = l !! (length l - n + i)%nat.
Proof. intros Hn. unfold tail. by rewrite lookup_drop. Qed.

(** With at least 30 recent prices a lag feature is a price of the series,
    counted from its end. *)
Lemma price_lag_tail (k : nat) (df : DataFrame) :
  (1 <= k <= 30)%nat -> (30 <= length df)%nat ->
  exists p, map price df !! (length df - k)%nat = Some p /\
            price_lag k (map price (tail 30 df)) = Fin p.
Proof.
  intros Hk Hn.
  destruct (lookup_lt_is_Some_2 df (length df - k)%nat) as [r Hr]; [lia|].
  exists (price r). split.
  - by rewrite map_lookup, Hr.
  - unfold price_lag. rewrite length_map, length_tail_ge by done.
    destruct (decide (k <= 30)%nat); [|lia].
    rewrite map_lookup, lookup_tail by done.
    replace (length df - 30 + (30 - k))%nat with (length df - k)%nat by lia.
    by rewrite Hr.
Qed.

Lemma shift_lookup (k n : nat) (l : list Q) :
  (k <= n)%nat -> (n < length l)%nat ->
  shift k l !! n = Fin <$> l !! (n - k)%nat.
Proof.
  intros Hk Hn. unfold shift.
  rewrite lookup_take_lt by done.
  rewrite lookup_app_r by (rewrite length_replicate; lia).
  by rewrite length_replicate, map_lookup.
Qed.

Lemma lag_features_cases (k j : nat) (name : string) :
  (k, j, name) ∈ lag_features ->
  (k, j, name) = (1%nat, 8%nat, "price_lag_1") \/
  (k, j, name) = (7%nat, 9%nat, "price_lag_7") \/
  (k, j, name) = (30%nat, 10%nat, "price_lag_30").
Proof.
  unfold lag_features. intros Hin.
  apply elem_of_cons in Hin as [-> | Hin]; [by left|].
  apply elem_of_cons in Hin as [-> | Hin]; [by right; left|].
  apply elem_of_cons in Hin as [-> | Hin]; [by right; right|].
  by apply elem_of_nil in Hin.
Qed.

(** The lag column the training table would hold for one more observation
    appended to the series. *)
Lemma training_lag_of_next_row (k j : nat) (name : string) (df : DataFrame)
    (obs : PriceData) :
  (k, j, name) ∈ lag_features ->
  (k <= length df)%nat ->
  column name <$> feature_table (df ++ [obs]) !! length df
  = Some (default NaN (Fin <$> map price df !! (length df - k)%nat)).
Proof.
  intros Hin Hk.
  assert (Hrow : (df ++ [obs]) !! length df = Some obs).
  { by rewrite lookup_app_r, Nat.sub_diag by lia. }
  assert (Hshift : at_index (shift k (map price (df ++ [obs]))) (length df)
                   = default NaN (Fin <$> map price df !! (length df - k)%nat)).
  { assert (1 <= k)%nat as Hk1.
    { destruct (lag_features_cases k j name Hin) as [E | [E | E]];
        injection E as -> _ _; lia. }
    unfold at_index. rewrite shift_lookup.
    - rewrite map_app, lookup_app_l; [done|]. rewrite length_map. lia.
    - done.
    - rewrite length_map, length_app. simpl. lia. }
  unfold feature_table. rewrite list_lookup_imap, Hrow. cbn [fmap option_fmap option_map].
  f_equal. rewrite <- Hshift.
  destruct (lag_features_cases k j name Hin) as [E | [E | E]];
    injection E as -> -> ->; reflexivity.
Qed.

Lemma find_daily (df : DataFrame) : forall (start : Z) (i : nat) (r : PriceData),
  daily_from start df -> df !! i = Some r ->
  List.find (fun r' => toordinal (date r') =? start + Z.of_nat i) df = Some r.
Proof.
  induction df as [|r0 df IH]; intros start i r Hd Hi; [done|].
  simpl. pose proof (Hd 0%nat r0 eq_refl) as H0. simpl in H0.
  destruct i as [|i]; simpl in Hi.
  - injection Hi as ->. rewrite H0.
    by rewrite Z.eqb_refl.
  - destruct (Z.eqb_spec (toordinal (date r0)) (start + Z.of_nat (S i))) as [E|_]; [lia|].
    replace (start + Z.of_nat (S i)) with ((start + 1) + Z.of_nat i) by lia.
    apply IH; [|done].
    intros i' r' Hi'. rewrite (Hd (S i') r' Hi'). lia.
Qed.

Lemma price_on_daily (df : DataFrame) (start : Z) (i : nat) :
  daily_from start df -> (i < length df)%nat ->
  price_on df (start + Z.of_nat i) = map price df !! i.
Proof.
  intros Hd Hi. destruct (lookup_lt_is_Some_2 df i Hi) as [r Hr].
  unfold price_on. by rewrite (find_daily df start i r Hd Hr), map_lookup, Hr.
Qed.

(** ** Which rows are valid *)

Lemma at_index_shift_lt (k i : nat) (l : list Q) :
  (i < k)%nat -> (i < length l)%nat -> at_index (shift k l) i = NaN.
Proof.
  intros Hk Hi. unfold at_index, shift.
  rewrite lookup_take_lt by done.
  rewrite lookup_app_l by (by rewrite length_replicate).
  by rewrite lookup_replicate_2.
Qed.

Lemma at_index_shift_ge (k i : nat) (l : list Q) :
  (k <= i)%nat -> (i < length l)%nat -> is_nan (at_index (shift k l) i) = false.
Proof.
  intros Hk Hi. unfold at_index. rewrite shift_lookup by done.
  destruct (lookup_lt_is_Some_2 l (i - k)%nat) as [q ->]; [lia | done].
Qed.

Lemma at_index_rolling_mean (w i : nat) (l : list Q) :
  (0 < w)%nat -> (i < length l)%nat ->
  is_nan (at_index (rolling_mean w l) i) = bool_decide (S i < w)%nat.
Proof.
  intros Hw Hi. unfold at_index, rolling_mean.
  rewrite map_lookup, lookup_seq_lt by done. cbn [fmap option_fmap option_map default].
  rewrite Nat.add_0_l.
  destruct (decide (S i < w)%nat) as [Hlt | Hge].
  - by rewrite bool_decide_eq_true_2.
  - rewrite bool_decide_eq_false_2 by done.
    destruct (take w (drop (S i - w) l)) as [|q t] eqn:E; [|done].
    apply (f_equal length) in E. rewrite length_take, length_drop in E.
    simpl in E. lia.
Qed.

(** A row of the table has a missing value exactly when it is one of the
    first thirty. *)
Lemma feature_table_has_nan (df : DataFrame) (i : nat) (row : Row) :
  feature_table df !! i = Some row ->
  negb (has_nan row) = bool_decide (30 <= i)%nat.
Proof.
  unfold feature_table. rewrite list_lookup_imap.
  destruct (df !! i) as [r|] eqn:Hr; [|done].
  cbn [fmap option_fmap option_map]. intros Hrow. apply (inj Some) in Hrow. subst row.
  assert (Hi : (i < length (map price df))%nat).
  { rewrite length_map. by eapply lookup_lt_Some. }
  unfold has_nan, feature_columns. cbn [existsb column String.eqb Ascii.eqb Bool.eqb
    row_year row_month row_day row_dayofyear row_weekday row_quarter
    row_sin_dayofyear row_cos_dayofyear row_price_lag_1 row_price_lag_7
    row_price_lag_30 row_price_ma_7 row_price_ma_30 is_nan of_int sin_doy cos_doy orb].
  rewrite !at_index_rolling_mean by (done || lia).
  destruct (decide (30 <= i)%nat) as [Hge | Hlt].
  - rewrite !at_index_shift_ge by (done || lia).
    rewrite (bool_decide_eq_true_2 _ Hge).
    rewrite !bool_decide_eq_false_2 by lia. done.
  - rewrite (bool_decide_eq_false_2 _ Hlt).
    rewrite (at_index_shift_lt 30 i) by (done || lia).
    rewrite negb_false_iff. rewrite !orb_true_iff. tauto.
Qed.

Lemma filter_from_index {A} (P : A -> bool) (l : list A) : forall k : nat,
  (forall i x, l !! i = Some x -> P x = bool_decide (k <= i)%nat) ->
  List.filter P l = drop k l.
Proof.
  induction l as [|x l IH]; intros k HP; [by destruct k|].
  cbn [List.filter]. rewrite (HP 0%nat x eq_refl).
  destruct k as [|k].
  - rewrite bool_decide_eq_true_2 by lia. rewrite (IH 0%nat); [done|].
    intros i y Hy. rewrite (HP (S i) y Hy).
    rewrite !bool_decide_eq_true_2 by lia. done.
  - rewrite bool_decide_eq_false_2 by lia. cbn [drop]. apply IH.
    intros i y Hy. rewrite (HP (S i) y Hy).
    apply bool_decide_ext. lia.
Qed.

(** The valid feature rows of a series are the rows from index 30 on: a
    series of n points has n - 30 of them. *)
Lemma valid_rows_length (df : DataFrame) :
  valid_rows df = drop 30 (feature_table df) /\
  length (valid_rows df) = (length df - 30)%nat.
Proof.
  assert (H : valid_rows df = drop 30 (feature_table df)).
  { unfold valid_rows, dropna. apply filter_from_index.
    intros i row Hrow. exact (feature_table_has_nan df i row Hrow). }
  split; [done|].
  rewrite H, length_drop. unfold feature_table. by rewrite length_imap.
Qed.


(** C5 (as amended). For a commodity with at least 30 observations and any
    target date, each lag component of the prediction vector sits at the
    position its column has in the training table and holds the price found
    1, 7 or 30 places from the end of the series, whatever the target date;
    that is the value the training table would give the same column for the
    next row of the series, and, for a daily series and a target date one day
    after its last observation, the price observed exactly 1, 7 or 30 days
    before the target date. *)
Theorem C5_lag_features_read_series_tail (st : MarketPricePredictor)
    (crop : string) (d : datetime) (df : DataFrame) (features : list float64) :
  historical_data st !! crop = Some df ->
  (30 <= length df)%nat ->
  _prepare_prediction_features st crop d = Ok features ->
  forall (k j : nat) (name : string),
    (k, j, name) ∈ lag_features ->
    feature_columns !! j = Some name /\
    exists p : Q,
      map price df !! (length df - k)%nat = Some p /\
      features !! j = Some (Fin p) /\
      (forall obs : PriceData,
         column name <$> feature_table (df ++ [obs]) !! length df = Some (Fin p)) /\
      (forall start : Z,
         daily_from start df ->
         toordinal d = start + Z.of_nat (length df) ->
         price_on df (toordinal d - Z.of_nat k) = Some p).
Proof.
  intros Hdf Hlen Hfeat k j name Hin.
  assert (1 <= k <= 30)%nat as Hk.
  { destruct (lag_features_cases k j name Hin) as [E | [E | E]];
      injection E as -> _ _; lia. }
  destruct (price_lag_tail k df Hk Hlen) as (p & Hp & Hlag).
  split.
  { destruct (lag_features_cases k j name Hin) as [E | [E | E]];
      injection E as _ -> ->; reflexivity. }
  exists p. split; [done|]. split; [|split].
  - unfold _prepare_prediction_features in Hfeat. rewrite Hdf in Hfeat.
    apply Ok_inj in Hfeat. subst features.
    destruct (lag_features_cases k j name Hin) as [E | [E | E]];
      injection E as -> -> _; cbn [lookup list_lookup]; by rewrite <- Hlag.
  - intros obs. rewrite (training_lag_of_next_row k j name df obs Hin) by lia.
    by rewrite Hp.
  - intros start Hdaily Hd.
    replace (toordinal d - Z.of_nat k) with (start + Z.of_nat (length df - k)) by lia.
    rewrite price_on_daily; [done | done | lia].
Qed.

(** ** Scaling at training time and at prediction time *)

Lemma fit_and_score_unscaled sp (c : string * model_kind) :
  fst c <> "linear_regression" ->
  fst (fit_and_score sp c) = fit (snd c) (X_train sp) (y_train sp).
Proof.
  intros Hne. unfold fit_and_score.
  apply String.eqb_neq in Hne. by rewrite Hne.
Qed.

(** When a candidate other than the linear baseline wins, the stored model
    was fitted on the unscaled training rows, and a prediction hands it the
    scaled feature vector. *)
Lemma unscaled_model_gets_scaled_vector crop st df d w name :
  historical_data st !! crop = Some df ->
  (100 <= length (valid_rows df))%nat ->
  let ssc := make_split (valid_rows df) in
  let st' := _train_crop_model crop st in
  best_model_name (select_best (fst ssc)) = Some name ->
  name <> "linear_regression" ->
  exists kind features p,
    (name, kind) ∈ candidates /\
    X_train (fst ssc)
      = map fst (fst (train_test_split (map sample_of (valid_rows df)))) /\
    models st' !! crop = Some (fit kind (X_train (fst ssc)) (y_train (fst ssc))) /\
    scalers st' !! crop = Some (snd ssc) /\
    _prepare_prediction_features st' crop d = Ok features /\
    fst (predict_price st' crop (Some d) w) = Ok p /\
    predicted_price p
      = round2 (predict (fit kind (X_train (fst ssc)) (y_train (fst ssc)))
                        (transform (snd ssc) features)).
Proof.
  intros Hdf Hlen ssc st' Hname Hne.
  destruct (train_sufficient crop st df Hdf Hlen) as (m & Hm & Htrain).
  fold ssc in Hm, Htrain. fold st' in Htrain.
  destruct (select_best_holds (fst ssc)) as [[Hnil _] | (i & c & Hi & Hb & _)].
  { discriminate Hnil. }
  rewrite Hb in Hm, Hname. cbn [best_model best_model_name] in Hm, Hname.
  apply (inj Some) in Hm, Hname. subst m name.
  rewrite fit_and_score_unscaled in Htrain by done.
  assert (Hdf' : historical_data st' !! crop = Some df).
  { subst st'. by rewrite train_historical_data. }
  assert (Hm' : models st' !! crop
                = Some (fit (snd c) (X_train (fst ssc)) (y_train (fst ssc)))).
  { rewrite Htrain. unfold set_registry. cbn [models]. apply lookup_insert_eq. }
  assert (Hs' : scalers st' !! crop = Some (snd ssc)).
  { rewrite Htrain. unfold set_registry. cbn [scalers]. apply lookup_insert_eq. }
  destruct (prepare_features_Ok st' crop d df Hdf') as [features Hf].
  eexists (snd c), features, _.
  split. { apply list_elem_of_lookup. exists i. by destruct c. }
  split; [done|]. split; [done|]. split; [done|]. split; [done|].
  rewrite (predict_price_trained st' crop d w _ _ df features Hm' Hs' Hdf' Hf).
  cbn [fst predicted_price]. done.
Qed.

(** ** Forecast *)




(** ** Persistence *)

Lemma load_after_save st st0 filepath fs :
  filepath ∉ unwritable fs ->
  load_models filepath (save_models st filepath fs) st0
  = mk_Predictor (db st0) (models st) (scalers st) (label_encoders st)
                 (historical_data st0).
Proof.
  intros Hw. unfold save_models, load_models.
  destruct (decide (filepath ∈ unwritable fs)); [done|].
  cbn [files]. by rewrite lookup_insert_eq.
Qed.

(** C8 (as amended). Saving a registry and loading the file into any
    predictor restores exactly the saved models, scalers and label encoders.
    For a commodity whose history the loading predictor holds unchanged, a
    prediction is then identical to the original predictor's given the same
    state of the random generator and clock, and for any two states of the
    generator it agrees with the original's on everything but the confidence
    and the two pressure factors. *)
Theorem C8_save_then_load (st st0 : MarketPricePredictor) (filepath : string)
    (fs : FileSystem) :
  filepath ∉ unwritable fs ->
  let st' := load_models filepath (save_models st filepath fs) st0 in
  models st' = models st /\
  scalers st' = scalers st /\
  label_encoders st' = label_encoders st /\
  historical_data st' = historical_data st0 /\
  forall crop : string,
    historical_data st0 !! crop = historical_data st !! crop ->
    (forall (date_arg : option datetime) (w : World),
       predict_price st' crop date_arg w = predict_price st crop date_arg w) /\
    (forall (d : datetime) (w1 w2 : World),
       same_up_to_draws (fst (predict_price st' crop (Some d) w1))
                        (fst (predict_price st crop (Some d) w2))).
Proof.
  intros Hw st'. subst st'. rewrite (load_after_save st st0 filepath fs Hw).
  cbn [models scalers label_encoders historical_data].
  split; [done|]. split; [done|]. split; [done|]. split; [done|].
  intros crop Hd. split.
  - intros date_arg w. by apply predict_price_ext.
  - intros d w1 w2. by apply predict_price_up_to_draws.
Qed.

(** C9 (as amended). Loading never raises: every failure is logged and the
    call returns a predictor. When the file is missing, does not unpickle to
    a dictionary, or lacks the models entry, the predictor is exactly as it
    was before the call. *)
Theorem C9_load_unreadable_keeps_registry (filepath : string) (fs : FileSystem)
    (st : MarketPricePredictor) :
  (files fs !! filepath = None \/
   files fs !! filepath = Some PGarbage \/
   exists ss les, files fs !! filepath = Some (PDict None ss les)) ->
  load_models filepath fs st = st /\
  models (load_models filepath fs st) = models st /\
  scalers (load_models filepath fs st) = scalers st.
Proof.
  intros H. assert (load_models filepath fs st = st) as ->; [|done].
  unfold load_models.
  destruct H as [-> | [-> | (ss & les & ->)]]; done.
Qed.

(** ** Recording an observation *)

Lemma forecast_loop_ext st1 st2 crop :
  (forall d w, predict_price st1 crop d w = predict_price st2 crop d w) ->
  forall n i w, forecast_loop st1 crop i n w = forecast_loop st2 crop i n w.
Proof.
  intros Hp. induction n as [|n IH]; intros i w; [done|].
  cbn [forecast_loop]. rewrite Hp.
  destruct (predict_price st2 crop _ _) as [[p|e] w']; [|done].
  by rewrite IH.
Qed.

(** C10. Recording a new price observation only touches the database table:
    the in-memory histories, models, scalers and label encoders are the same
    afterwards, so every prediction and every forecast, for any commodity,
    date and state of the random generator and clock, returns what it
    returned before. *)
Theorem C10_add_price_data_frame (pd : PriceData) (st : MarketPricePredictor) :
  historical_data (add_price_data pd st) = historical_data st /\
  models (add_price_data pd st) = models st /\
  scalers (add_price_data pd st) = scalers st /\
  label_encoders (add_price_data pd st) = label_encoders st /\
  (forall (crop : string) (date_arg : option datetime) (w : World),
     predict_price (add_price_data pd st) crop date_arg w
     = predict_price st crop date_arg w) /\
  (forall (crop : string) (days : Z) (w : World),
     get_price_forecast (add_price_data pd st) crop days w
     = get_price_forecast st crop days w).
Proof.
  assert (Hframe : historical_data (add_price_data pd st) = historical_data st /\
                   models (add_price_data pd st) = models st /\
                   scalers (add_price_data pd st) = scalers st /\
                   label_encoders (add_price_data pd st) = label_encoders st).
  { unfold add_price_data. by destruct (db_writable (db st)). }
  destruct Hframe as (Hh & Hm & Hs & Hl).
  assert (Hpred : forall crop date_arg w,
            predict_price (add_price_data pd st) crop date_arg w
            = predict_price st crop date_arg w).
  { intros. apply predict_price_ext; congruence. }
  split; [done|]. split; [done|]. split; [done|]. split; [done|].
  split; [done|].
  intros crop days w. unfold get_price_forecast.
  apply forecast_loop_ext. intros. apply Hpred.
Qed.

End Properties.

(** * The properties on the concrete instance *)

Import Fixture.

(** ** Evaluating the instance *)

Lemma predictor_eta `{SK : Sklearn} (st : MarketPricePredictor) :
  st = mk_Predictor (db st) (models st) (scalers st) (label_encoders st)
                    (historical_data st).
Proof. by destruct st. Qed.


Lemma saffron_valid_rows : length (valid_rows saffron) = 10%nat.
Proof. vm_compute; reflexivity. Qed.



(** Constructing the predictor trains "Rice" and skips "Saffron". *)
Lemma trained_value_eq : trained = trained_value.
Proof.
  assert (Hdb : db trained = market_db) by (vm_compute; reflexivity).
  assert (Hm : models trained = {["Rice" := LastPrice]})
    by (vm_compute; reflexivity).
  assert (Hs : scalers trained = {["Rice" := rice_scaler]})
    by (vm_compute; reflexivity).
  assert (Hl : label_encoders trained = ∅) by (vm_compute; reflexivity).
  assert (Hh : historical_data trained = list_to_map histories)
    by (vm_compute; reflexivity).
  rewrite (predictor_eta trained), Hdb, Hm, Hs, Hl, Hh. reflexivity.
Qed.

Lemma rising_series_daily (crop : string) (n : nat) :
  daily_from ord_2020_01_01 (rising_series crop n).
Proof.
  intros i r Hi. unfold rising_series in Hi.
  rewrite map_lookup in Hi.
  destruct (seq 0 n !! i) as [k|] eqn:Hk; [|done].
  apply lookup_seq in Hk as [-> _].
  apply (inj Some) in Hi. subst r. cbn [date].
  unfold toordinal, at_midnight. cbn [timestamp].
  rewrite Z.div_mul by done. lia.
Qed.

(** ** Instances of the theorems *)


Lemma C2_witness :
  (length (valid_rows saffron) < 100)%nat /\
  models trained !! "Saffron" = None /\
  forall (date_arg : option datetime) (w : World),
    fst (predict_price trained "Saffron" date_arg w)
    = Raise (ModelUnavailable "Saffron").
Proof.
  assert (H1 : (length (valid_rows saffron) < 100)%nat)
    by (rewrite saffron_valid_rows; lia).
  split; [exact H1|].
  destruct (C2_short_history_is_skipped "Saffron" saffron H1) as [_ Hinit].
  destruct (Hinit market_db histories) as (Hm & _ & Hp).
  - vm_compute; reflexivity.
  - split; [exact Hm | exact Hp].
Defined.

Lemma C4_witness :
  exists p : PricePrediction,
    fst (predict_price trained "Rice" (Some next_day) world_ramp) = Ok p /\
    (1 # 2 <= confidence p)%Q /\ (confidence p <= 95 # 100)%Q.
Proof.
  rewrite trained_value_eq.
  eexists. split; [vm_compute; reflexivity|].
  match goal with
  | |- (_ <= confidence ?p)%Q /\ _ =>
      destruct (C4_confidence_in_range trained_value "Rice" (Some next_day)
                  world_ramp p) as (Hlo & Hhi & _)
  end.
  - vm_compute; reflexivity.
  - split; [exact Hlo | exact Hhi].
Defined.

Lemma C5_witness :
  exists (features : list float64) (p : Q),
    _prepare_prediction_features trained "Rice" next_day = Ok features /\
    map price rice !! (length rice - 7)%nat = Some p /\
    features !! 9%nat = Some (Fin p) /\
    price_on rice (toordinal next_day - 7) = Some p.
Proof.
  rewrite trained_value_eq.
  eexists.
  assert (H1 : historical_data trained_value !! "Rice" = Some rice)
    by (vm_compute; reflexivity).
  assert (H2 : (30 <= length rice)%nat) by (vm_compute; lia).
  assert (H4 : (7%nat, 9%nat, "price_lag_7") ∈ lag_features)
    by (apply list_elem_of_In; vm_compute; tauto).
  match goal with
  | |- exists p, ?F = Ok ?fs /\ _ =>
      assert (H3 : F = Ok fs) by (vm_compute; reflexivity);
      destruct (C5_lag_features_read_series_tail trained_value "Rice" next_day
                  rice fs H1 H2 H3 7%nat 9%nat "price_lag_7" H4)
        as (_ & p & Hp & Hf & _ & Hday)
  end.
  exists p. split; [exact H3|]. split; [exact Hp|]. split; [exact Hf|].
  apply (Hday ord_2020_01_01).
  - apply rising_series_daily.
  - vm_compute; reflexivity.
Defined.


Lemma C8_witness :
  ("models.pkl" ∉ unwritable empty_fs) /\
  (let st' := load_models "models.pkl" (save_models trained "models.pkl" empty_fs)
                          fresh in
   models st' = models trained /\
   scalers st' = scalers trained /\
   predict_price st' "Rice" (Some next_day) world_ramp
   = predict_price trained "Rice" (Some next_day) world_ramp).
Proof.
  assert (H1 : "models.pkl" ∉ unwritable empty_fs).
  { apply not_elem_of_empty. }
  split; [exact H1|].
  destruct (C8_save_then_load trained fresh "models.pkl" empty_fs H1)
    as (Hm & Hs & _ & _ & Hp).
  split; [exact Hm|]. split; [exact Hs|].
  destruct (Hp "Rice") as [Hsame _].
  - rewrite trained_value_eq. vm_compute; reflexivity.
  - exact (Hsame (Some next_day) world_ramp).
Defined.

Lemma C9_witness :
  files empty_fs !! "models.pkl" = None /\
  load_models "models.pkl" empty_fs trained = trained.
Proof.
  assert (H1 : files empty_fs !! "models.pkl" = None) by apply lookup_empty.
  split; [exact H1|].
  exact (proj1 (C9_load_unreadable_keeps_registry "models.pkl" empty_fs trained
                  (or_introl H1))).
Defined.

(** ** Where the code departs from the stated properties *)


(** For a target date two days after the last observation, the lag-7
    component is the price observed eight days before the target, not the
    one observed seven days before it, and the lag-1 component is a price
    although nothing was observed the day before the target. *)
Lemma C5_counterexample :
  is_Some (models trained !! "Rice") /\
  historical_data trained !! "Rice" = Some rice /\
  exists (features : list float64) (lag_1 lag_7 seven_before eight_before : Q),
    _prepare_prediction_features trained "Rice" day_after_next = Ok features /\
    features !! 8%nat = Some (Fin lag_1) /\
    price_on rice (toordinal day_after_next - 1) = None /\
    features !! 9%nat = Some (Fin lag_7) /\
    price_on rice (toordinal day_after_next - 7) = Some seven_before /\
    price_on rice (toordinal day_after_next - 8) = Some eight_before /\
    (lag_7 == eight_before)%Q /\
    ~ (lag_7 == seven_before)%Q.
Proof.
  rewrite trained_value_eq.
  split; [vm_compute; by eexists|].
  split; [vm_compute; reflexivity|].
  eexists _, _, _, _, _.
  split; [vm_compute; reflexivity|].
  split; [vm_compute; reflexivity|].
  split; [vm_compute; reflexivity|].
  split; [vm_compute; reflexivity|].
  split; [vm_compute; reflexivity|].
  split; [vm_compute; reflexivity|].
  split; [vm_compute; reflexivity|].
  vm_compute; discriminate.
Qed.



(** Saving the registry of [trained] and loading the file elsewhere.
    Loaded into a predictor holding the same histories, a prediction drawn
    from another state of the random generator has another confidence;
    loaded into a predictor whose history of the commodity differs, the
    predicted price itself differs. *)
Lemma C8_counterexample :
  let saved := save_models trained "models.pkl" empty_fs in
  let same_history := load_models "models.pkl" saved fresh in
  let own_history := load_models "models.pkl" saved other in
  exists p p_same p_own : PricePrediction,
    fst (predict_price trained "Rice" (Some next_day) world_ramp) = Ok p /\
    fst (predict_price same_history "Rice" (Some next_day) world_zero) = Ok p_same /\
    fst (predict_price own_history "Rice" (Some next_day) world_ramp) = Ok p_own /\
    models same_history = models trained /\
    historical_data same_history = historical_data trained /\
    models own_history = models trained /\
    ~ (confidence p == confidence p_same)%Q /\
    predicted_price p <> predicted_price p_own.
Proof.
  rewrite trained_value_eq. cbv zeta. eexists _, _, _.
  split; [vm_compute; reflexivity|].
  split; [vm_compute; reflexivity|].
  split; [vm_compute; reflexivity|].
  split; [vm_compute; reflexivity|].
  split; [vm_compute; reflexivity|].
  split; [vm_compute; reflexivity|].
  split; vm_compute; discriminate.
Qed.

(** Loading [partial_fs] into a predictor that can predict "Rice". *)
Lemma load_partial_fs (st : MarketPricePredictor) :
  is_Some (models st !! "Rice") ->
  let st' := load_models "models.pkl" partial_fs st in
  models st' !! "Rice" = None /\
  models st' <> models st /\
  scalers st' = scalers st /\
  forall d w, fst (predict_price st' "Rice" d w) = Raise (ModelUnavailable "Rice").
Proof.
  intros [m Hm] st'.
  assert (Hst' : st' = mk_Predictor (db st) ∅ (scalers st) (label_encoders st)
                                    (historical_data st)).
  { subst st'. unfold load_models, partial_fs. cbn [files].
    by rewrite lookup_singleton_eq. }
  rewrite Hst'. cbn [models scalers].
  split; [apply lookup_empty|].
  split.
  { intros H. rewrite <- H, lookup_empty in Hm. discriminate Hm. }
  split; [reflexivity|].
  intros d w. apply predict_without_model. cbn [models]. apply lookup_empty.
Qed.

(** A file whose dictionary has a models entry and no scalers entry: loading
    it returns normally, with the models of the predictor replaced and its
    scalers kept, after which the commodity can no longer be predicted. *)
Lemma C9_counterexample :
  let st' := load_models "models.pkl" partial_fs trained in
  files partial_fs !! "models.pkl" = Some (PDict (Some ∅) None None) /\
  is_Some (models trained !! "Rice") /\
  models st' !! "Rice" = None /\
  models st' <> models trained /\
  scalers st' = scalers trained /\
  fst (predict_price st' "Rice" (Some next_day) world_zero)
  = Raise (ModelUnavailable "Rice").
Proof.
  assert (Hrice : is_Some (models trained !! "Rice")).
  { rewrite trained_value_eq. vm_compute. by eexists. }
  destruct (load_partial_fs trained Hrice) as (H1 & H2 & H3 & H4).
  split; [apply lookup_singleton_eq|].
  split; [exact Hrice|].
  split; [exact H1|]. split; [exact H2|]. split; [exact H3|].
  apply H4.
Qed.

(** * Further properties of the module *)

Section MoreProperties.
Context `{SK : Sklearn} `{NP : Numpy}.

(** ** Rounding *)

Lemma round_half_even_close (q : Q) :
  (inject_Z (round_half_even q) - (1 # 2) <= q)%Q /\
  (q <= inject_Z (round_half_even q) + (1 # 2))%Q.
Proof.
  unfold round_half_even.
  pose proof (Qfloor_le q) as Hlo. pose proof (Qlt_floor q) as Hhi.
  rewrite inject_Z_plus in Hhi. change (inject_Z 1) with 1%Q in Hhi.
  destruct (Qltb (q - inject_Z (Qfloor q)) (1 # 2)) eqn:E1.
  { apply Qltb_lt in E1. split; lra. }
  apply Qltb_ge in E1.
  destruct (Qltb (1 # 2) (q - inject_Z (Qfloor q))) eqn:E2.
  { rewrite inject_Z_plus. change (inject_Z 1) with 1%Q. split; lra. }
  apply Qltb_ge in E2.
  destruct (Z.even (Qfloor q));
    [|rewrite inject_Z_plus; change (inject_Z 1) with 1%Q]; split; lra.
Qed.

Lemma round_half_even_bounds (a b : Z) (q : Q) :
  (inject_Z a <= q)%Q -> (q <= inject_Z b)%Q ->
  a <= round_half_even q <= b.
Proof.
  intros Ha Hb.
  pose proof (Qfloor_le q) as Hlo. pose proof (Qlt_floor q) as Hhi.
  rewrite inject_Z_plus in Hhi. change (inject_Z 1) with 1%Q in Hhi.
  assert (H1 : a <= Qfloor q).
  { rewrite <- (Qfloor_Z a). by apply Qfloor_resp_le. }
  assert (H2 : Qfloor q <= b).
  { rewrite Zle_Qle. lra. }
  unfold round_half_even.
  destruct (Qltb (q - inject_Z (Qfloor q)) (1 # 2)) eqn:E1; [lia|].
  apply Qltb_ge in E1.
  assert (H3 : Qfloor q < b).
  { rewrite Zlt_Qlt. lra. }
  destruct (Qltb (1 # 2) (q - inject_Z (Qfloor q))); [lia|].
  destruct (Z.even (Qfloor q)); lia.
Qed.

Lemma clamp_between (lo hi x : Q) :
  (lo <= hi)%Q -> (lo <= py_max lo (py_min hi x))%Q /\ (py_max lo (py_min hi x) <= hi)%Q.
Proof.
  intros Hle. unfold py_max, py_min.
  destruct (Qltb x hi) eqn:E1.
  - destruct (Qltb lo x) eqn:E2.
    + apply Qltb_lt in E1, E2. split; lra.
    + split; lra.
  - destruct (Qltb lo hi) eqn:E2; split; lra.
Qed.

(** ** The generated history *)

Lemma generate_rows_spec crop mn mx avg (dates : list datetime) : forall w,
  let r := generate_rows crop mn mx avg dates w in
  map date (fst r) = dates /\
  length (fst r) = length dates /\
  snd r = mk_World (rng_tape w) (rng_pos w + length dates) (clock w) (clock_pos w).
Proof.
  induction dates as [|d ds IH]; intros w; cbn [generate_rows].
  - cbn [fst snd map length]. rewrite Nat.add_0_r. by destruct w.
  - cbv zeta. destruct (IH (snd (generated_row crop mn mx avg d w))) as (Hd & Hl & Hw).
    cbn [fst snd map length].
    split; [by rewrite Hd|]. split; [by rewrite Hl|].
    rewrite Hw. unfold generated_row, random_normal.
    cbn [snd rng_tape rng_pos clock clock_pos]. f_equal. lia.
Qed.

Lemma generate_rows_rows crop mn mx avg (dates : list datetime) : forall w r,
  r ∈ fst (generate_rows crop mn mx avg dates w) ->
  crop_name r = crop /\ market_name r = "Kerala Market" /\ price_unit r = "kg" /\
  quality r = "Grade A" /\ source r = "Historical Data" /\
  exists x : Q, price r = round2_Q (py_max mn (py_min mx x)).
Proof.
  induction dates as [|d ds IH]; intros w r Hr; cbn [generate_rows fst] in Hr.
  - by apply elem_of_nil in Hr.
  - cbv zeta in Hr. cbn [fst] in Hr. apply elem_of_cons in Hr as [-> | Hr].
    + unfold generated_row. cbn [fst crop_name market_name price_unit quality source price].
      repeat (split; [done|]). by eexists.
    + exact (IH _ r Hr).
Qed.

Lemma toordinal_at_midnight (ord : Z) : toordinal (at_midnight ord) = ord.
Proof.
  unfold toordinal, at_midnight. cbn [timestamp]. by rewrite Z.div_mul.
Qed.

Lemma date_range_length : length (date_range ord_2020_01_01 ord_2024_12_31) = 1827%nat.
Proof. unfold date_range. rewrite length_map, length_seq. reflexivity. Qed.


(** X1. Every generated price lies between the minimum and the maximum price
    given for the commodity, provided the minimum does not exceed the maximum
    and both are whole numbers of hundredths (rounding to two decimals then
    cannot leave the interval). *)
Theorem X1_generated_prices_within_bounds (crop : string) (mn mx avg : Q)
    (a b : Z) (w : World) :
  (mn * 100 == inject_Z a)%Q -> (mx * 100 == inject_Z b)%Q -> (mn <= mx)%Q ->
  forall r : PriceData,
    r ∈ fst (_generate_historical_prices crop mn mx avg w) ->
    (mn <= price r)%Q /\ (price r <= mx)%Q.
Proof.
  intros Ha Hb Hle r Hr. unfold _generate_historical_prices in Hr.
  destruct (generate_rows_rows _ _ _ _ _ _ _ Hr) as (_ & _ & _ & _ & _ & x & ->).
  destruct (clamp_between mn mx x Hle) as [Hlo Hhi].
  set (c := py_max mn (py_min mx x)) in *.
  destruct (round_half_even_bounds a b (c * 100)) as [Hra Hrb]; [lra | lra |].
  rewrite Zle_Qle in Hra, Hrb. unfold round2_Q. split.
  - apply Qle_shift_div_l; [reflexivity | lra].
  - apply Qle_shift_div_r; [reflexivity | lra].
Qed.

(** X2. A generated history has 1827 rows, one for every calendar day from
    2020-01-01 to 2024-12-31 in ascending order, each at midnight and labelled
    with the commodity; generating it takes exactly 1827 draws from the
    random generator and does not read the clock. *)
Theorem X2_generated_history_shape (crop : string) (mn mx avg : Q) (w : World) :
  let r := _generate_historical_prices crop mn mx avg w in
  length (fst r) = 1827%nat /\
  map date (fst r) = date_range ord_2020_01_01 ord_2024_12_31 /\
  daily_from ord_2020_01_01 (fst r) /\
  civil ord_2020_01_01 = (2020, 1, 1) /\
  civil (ord_2020_01_01 + 1826) = (2024, 12, 31) /\
  (forall row, row ∈ fst r -> crop_name row = crop) /\
  snd r = mk_World (rng_tape w) (rng_pos w + 1827) (clock w) (clock_pos w).
Proof.
  intros r. subst r. unfold _generate_historical_prices.
  destruct (generate_rows_spec crop mn mx avg
              (date_range ord_2020_01_01 ord_2024_12_31) w) as (Hd & Hl & Hw).
  rewrite date_range_length in Hl, Hw.
  split; [done|]. split; [done|]. split; [|split; [reflexivity|split; [reflexivity|split]]].
  - intros i row Hi.
    assert (Hdate : date_range ord_2020_01_01 ord_2024_12_31 !! i = Some (date row)).
    { rewrite <- Hd, map_lookup, Hi. done. }
    unfold date_range in Hdate. rewrite map_lookup in Hdate.
    destruct (seq 0 _ !! i) as [k|] eqn:Hk; [|done].
    apply lookup_seq in Hk as [-> _]. apply (inj Some) in Hdate.
    rewrite <- Hdate. by rewrite toordinal_at_midnight.
  - intros row Hrow. by destruct (generate_rows_rows _ _ _ _ _ _ _ Hrow) as [-> _].
  - done.
Qed.


(** ** Training a whole dictionary *)







Lemma predict_price_default_date st crop w :
  predict_price st crop None w
  = predict_price st crop (Some (dt_add (fst (now w)) (mk_timedelta 1))) (snd (now w)).
Proof. reflexivity. Qed.




(** ** The registry invariant *)





(** ** Training one commodity *)

(** X5. Training is idempotent: training a commodity a second time, the
    history unchanged, leaves the predictor as the first training left it.
    It touches only that commodity: the models and scalers of every other
    commodity, the histories, the label encoders and the database are the
    same afterwards; and a commodity without a history is left alone. *)
Theorem X5_training_idempotent_and_local (c : string) (st : MarketPricePredictor) :
  _train_crop_model c (_train_crop_model c st) = _train_crop_model c st /\
  (forall crop, crop <> c ->
     models (_train_crop_model c st) !! crop = models st !! crop /\
     scalers (_train_crop_model c st) !! crop = scalers st !! crop) /\
  historical_data (_train_crop_model c st) = historical_data st /\
  label_encoders (_train_crop_model c st) = label_encoders st /\
  db (_train_crop_model c st) = db st /\
  (historical_data st !! c = None -> _train_crop_model c st = st).
Proof.
  split; [|split; [|split; [|split; [|split]]]].
  - destruct (historical_data st !! c) as [df|] eqn:Hdf.
    + destruct (decide (length (valid_rows df) < 100)%nat) as [Hlt | Hge].
      * by rewrite !(train_skip c st df Hdf Hlt).
      * destruct (train_sufficient c st df Hdf ltac:(lia)) as (m & Hm & Hst).
        destruct (train_sufficient c (_train_crop_model c st) df) as (m' & Hm' & Hst');
          [by rewrite train_historical_data | lia |].
        rewrite Hm in Hm'. apply (inj Some) in Hm'. subst m'.
        rewrite Hst'. rewrite Hst. unfold set_registry.
        cbn [models scalers db label_encoders historical_data].
        by rewrite !insert_insert_eq.
    + assert (H : _train_crop_model c st = st)
        by (unfold _train_crop_model; by rewrite Hdf).
      by rewrite !H.
  - intros crop Hne. by apply train_other_model.
  - apply train_historical_data.
  - unfold _train_crop_model. destruct (historical_data st !! c); [|done].
    destruct (decide _); [done|]. by destruct (best_model _).
  - unfold _train_crop_model. destruct (historical_data st !! c); [|done].
    destruct (decide _); [done|]. by destruct (best_model _).
  - intros Hdf. unfold _train_crop_model. by rewrite Hdf.
Qed.

(** X6. A series of n points yields n - 30 valid feature rows, the rows from
    index 30 on (the first thirty lack the 30-day lag). Training therefore
    needs 130 points: with fewer it changes nothing, with 130 or more it puts
    the commodity in both registries. *)
Theorem X6_training_needs_130_points (df : DataFrame) :
  valid_rows df = drop 30 (feature_table df) /\
  length (valid_rows df) = (length df - 30)%nat /\
  forall crop st,
    historical_data st !! crop = Some df ->
    ((length df < 130)%nat -> _train_crop_model crop st = st) /\
    ((130 <= length df)%nat ->
     is_Some (models (_train_crop_model crop st) !! crop) /\
     is_Some (scalers (_train_crop_model crop st) !! crop)).
Proof.
  destruct (valid_rows_length df) as [Hdrop Hlen].
  split; [done|]. split; [done|].
  intros crop st Hdf. split.
  - intros Hshort. apply (train_skip crop st df Hdf). lia.
  - intros Hlong.
    destruct (train_sufficient crop st df Hdf ltac:(lia)) as (m & _ & ->).
    unfold set_registry. cbn [models scalers]. by rewrite !lookup_insert_eq.
Qed.

(** ** Outcomes and effects of a prediction *)



Lemma predict_price_Ok_inv st crop date_arg w p :
  fst (predict_price st crop date_arg w) = Ok p ->
  exists m sc df features w1,
    models st !! crop = Some m /\ scalers st !! crop = Some sc /\
    historical_data st !! crop = Some df /\
    _prepare_prediction_features st crop (prediction_date p) = Ok features /\
    rng_tape w1 = rng_tape w /\ rng_pos w1 = rng_pos w /\
    p = mk_PricePrediction crop (round2 (predict m (transform sc features)))
          (fst (_calculate_confidence df w1)) (prediction_date p)
          (fst (_analyze_prediction_factors df (prediction_date p)
                  (snd (_calculate_confidence df w1))))
          (_generate_price_recommendation
             (fst (_analyze_prediction_factors df (prediction_date p)
                     (snd (_calculate_confidence df w1))))).
Proof.
  assert (H : forall d w0, fst (predict_price st crop (Some d) w0) = Ok p ->
            exists m sc df features,
              models st !! crop = Some m /\ scalers st !! crop = Some sc /\
              historical_data st !! crop = Some df /\
              _prepare_prediction_features st crop (prediction_date p) = Ok features /\
              p = mk_PricePrediction crop (round2 (predict m (transform sc features)))
                    (fst (_calculate_confidence df w0)) (prediction_date p)
                    (fst (_analyze_prediction_factors df (prediction_date p)
                            (snd (_calculate_confidence df w0))))
                    (_generate_price_recommendation
                       (fst (_analyze_prediction_factors df (prediction_date p)
                               (snd (_calculate_confidence df w0)))))).
  { intros d w0 Hp.
    destruct (models st !! crop) as [m|] eqn:Hm;
      [|by rewrite (predict_without_model st crop (Some d) w0 Hm) in Hp].
    destruct (historical_data st !! crop) as [df|] eqn:Hd.
    2:{ unfold predict_price, _prepare_prediction_features in Hp.
        cbn [fst snd] in Hp. by rewrite Hm, Hd in Hp. }
    destruct (scalers st !! crop) as [sc|] eqn:Hs.
    2:{ unfold predict_price, _prepare_prediction_features in Hp.
        cbn [fst snd] in Hp. by rewrite Hm, Hd, Hs in Hp. }
    destruct (prepare_features_Ok st crop d df Hd) as [features Hf].
    rewrite (predict_price_trained st crop d w0 m sc df features Hm Hs Hd Hf) in Hp.
    cbn [fst] in Hp. apply Ok_inj in Hp. subst p. cbn [prediction_date].
    by exists m, sc, df, features. }
  intros Hp. destruct date_arg as [d|].
  - destruct (H d w Hp) as (m & sc & df & features & Hm & Hs & Hd & Hf & Heq).
    by exists m, sc, df, features, w.
  - rewrite predict_price_default_date in Hp.
    destruct (H _ _ Hp) as (m & sc & df & features & Hm & Hs & Hd & Hf & Heq).
    by exists m, sc, df, features, (snd (now w)).
Qed.

Lemma factors_lookups df d w :
  let fs := fst (_analyze_prediction_factors df d w) in
  fs !! "seasonal_demand" = Some (Fin (seasonal_demand (month d))) /\
  fs !! "price_trend" = Some (price_trend (tail 30 (map price df))) /\
  fs !! "market_volatility" = Some (market_volatility (tail 30 (map price df))) /\
  fs !! "supply_pressure"
    = Some (Fin ((8 # 10) + ((12 # 10) - (8 # 10)) * rng_tape w (rng_pos w))%Q) /\
  fs !! "demand_pressure"
    = Some (Fin ((9 # 10) + ((11 # 10) - (9 # 10)) * rng_tape w (S (rng_pos w)))%Q) /\
  dom fs = ({["seasonal_demand"; "price_trend"; "market_volatility";
              "supply_pressure"; "demand_pressure"]} : gset string).
Proof.
  intros fs. subst fs. unfold _analyze_prediction_factors, random_uniform.
  cbn [fst snd rng_tape rng_pos].
  split; [by rewrite !lookup_insert_ne, lookup_insert_eq by done|].
  split; [by rewrite !lookup_insert_ne, lookup_insert_eq by done|].
  split; [by rewrite !lookup_insert_ne, lookup_insert_eq by done|].
  split; [by rewrite !lookup_insert_ne, lookup_insert_eq by done|].
  split; [by rewrite lookup_insert_eq|].
  rewrite !dom_insert_L, dom_empty_L. set_solver.
Qed.

(** X8. The factors of a returned prediction are exactly five:
    seasonal_demand, price_trend, market_volatility, supply_pressure and
    demand_pressure. The seasonal demand is 0.8, 1.0 or 1.2 by the month of
    the prediction date; the two pressures are the second and third random
    draws of the call, scaled into [0.8, 1.2] and [0.9, 1.1] when the
    generator's uniform draws lie in [0, 1]. *)
Theorem X8_prediction_factors (st : MarketPricePredictor) (crop : string)
    (date_arg : option datetime) (w : World) (p : PricePrediction) :
  fst (predict_price st crop date_arg w) = Ok p ->
  dom (factors p) = ({["seasonal_demand"; "price_trend"; "market_volatility";
                       "supply_pressure"; "demand_pressure"]} : gset string) /\
  factors p !! "seasonal_demand"
    = Some (Fin (seasonal_demand (month (prediction_date p)))) /\
  (seasonal_demand (month (prediction_date p)) = 8 # 10 \/
   seasonal_demand (month (prediction_date p)) = 12 # 10 \/
   seasonal_demand (month (prediction_date p)) = 1%Q) /\
  exists supply demand : Q,
    factors p !! "supply_pressure" = Some (Fin supply) /\
    factors p !! "demand_pressure" = Some (Fin demand) /\
    ((0 <= rng_tape w (S (rng_pos w)) <= 1)%Q ->
     (8 # 10 <= supply <= 12 # 10)%Q) /\
    ((0 <= rng_tape w (S (S (rng_pos w))) <= 1)%Q ->
     (9 # 10 <= demand <= 11 # 10)%Q).
Proof.
  intros Hp.
  destruct (predict_price_Ok_inv st crop date_arg w p Hp)
    as (m & sc & df & features & w1 & _ & _ & _ & _ & Htape & Hpos & Heq).
  set (d := prediction_date p) in *.
  destruct (factors_lookups df d (snd (_calculate_confidence df w1)))
    as (Hseason & _ & _ & Hsup & Hdem & Hdom).
  assert (Hfs : factors p = fst (_analyze_prediction_factors df d
                                   (snd (_calculate_confidence df w1))))
    by (by rewrite Heq).
  set (w2 := snd (_calculate_confidence df w1)) in *.
  assert (E1 : rng_tape w2 (rng_pos w2) = rng_tape w (S (rng_pos w))).
  { subst w2. unfold _calculate_confidence, random_normal.
    cbn [snd rng_tape rng_pos]. by rewrite Htape, Hpos. }
  assert (E2 : rng_tape w2 (S (rng_pos w2)) = rng_tape w (S (S (rng_pos w)))).
  { subst w2. unfold _calculate_confidence, random_normal.
    cbn [snd rng_tape rng_pos]. by rewrite Htape, Hpos. }
  rewrite E1 in Hsup. rewrite E2 in Hdem.
  rewrite Hfs. split; [done|]. split; [done|]. split.
  { unfold seasonal_demand. destruct (existsb _ _); [by left|].
    destruct (existsb _ _); [by right; left | by right; right]. }
  eexists _, _. split; [exact Hsup|]. split; [exact Hdem|].
  split; intros [H0 H1]; split; lra.
Qed.

Lemma seasonal_branch (m : Z) :
  (if fgt (Fin (seasonal_demand m)) (Fin (11 # 10))
   then ["High seasonal demand expected - good time to sell"]
   else if flt (Fin (seasonal_demand m)) (Fin (9 # 10))
        then ["Low seasonal demand - consider storing if possible"]
        else [])
  = seasonal_sentence m.
Proof.
  unfold seasonal_demand, seasonal_sentence.
  destruct (existsb (Z.eqb m) [6; 7; 8; 9; 10]); [reflexivity|].
  destruct (existsb (Z.eqb m) [11; 12; 1; 2]); reflexivity.
Qed.

(** X9. The recommendation of a returned prediction is two or three sentences
    joined by " | ": one of the three trend sentences; then, by the month of
    the prediction date, the low-demand sentence (June to October), the
    high-demand sentence (November to February) or nothing (March to May);
    then one of the two volatility sentences. *)
Theorem X9_recommendation_shape (st : MarketPricePredictor) (crop : string)
    (date_arg : option datetime) (w : World) (p : PricePrediction) :
  fst (predict_price st crop date_arg w) = Ok p ->
  exists t v : string,
    (t = "Prices are trending upward - consider holding your produce" \/
     t = "Prices are declining - consider selling soon" \/
     t = "Prices are stable - monitor market conditions") /\
    (v = "High market volatility - consider selling in smaller batches" \/
     v = "Stable market conditions - normal selling strategy recommended") /\
    recommendation p
    = join " | " (t :: seasonal_sentence (month (prediction_date p)) ++ [v]).
Proof.
  intros Hp.
  destruct (predict_price_Ok_inv st crop date_arg w p Hp)
    as (m & sc & df & features & w1 & _ & _ & _ & _ & _ & _ & Heq).
  set (d := prediction_date p) in *.
  destruct (factors_lookups df d (snd (_calculate_confidence df w1)))
    as (Hseason & Htrend & Hvol & _).
  assert (Hrec : recommendation p
                 = _generate_price_recommendation
                     (fst (_analyze_prediction_factors df d
                             (snd (_calculate_confidence df w1)))))
    by (by rewrite Heq).
  rewrite Hrec. unfold _generate_price_recommendation, factor.
  cbv zeta. rewrite Hseason, Htrend, Hvol. cbn [default from_option]. unfold id.
  rewrite seasonal_branch.
  destruct (fgt (price_trend _) _);
    [|destruct (flt (price_trend _) _)];
    destruct (fgt (market_volatility _) _);
    eexists _, _; (split; [|split; [|reflexivity]]); auto.
Qed.

(** X10. The edges of a forecast. For zero or a negative number of days it
    returns the empty list without reading the clock or the random generator,
    whatever the commodity (no error is raised for an invalid count or an
    unknown commodity). For a commodity without a model and at least one day
    it raises the no-model error after a single clock reading, returning no
    partial list. *)
Theorem X10_forecast_edges (st : MarketPricePredictor) (crop : string) (days : Z)
    (w : World) :
  (days <= 0 -> get_price_forecast st crop days w = (Ok [], w)) /\
  (1 <= days -> models st !! crop = None ->
   get_price_forecast st crop days w
   = (Raise (ModelUnavailable crop),
      mk_World (rng_tape w) (rng_pos w) (clock w) (S (clock_pos w)))).
Proof.
  unfold get_price_forecast. split.
  - intros Hd. replace (Z.to_nat days) with 0%nat by lia. reflexivity.
  - intros Hd Hm. destruct (Z.to_nat days) as [|n] eqn:E; [lia|].
    cbn [forecast_loop]. unfold predict_price. cbn [fst snd]. by rewrite Hm.
Qed.


(** ** Rolling means of the prediction vector *)

Lemma map_drop {A B} (f : A -> B) (n : nat) (l : list A) :
  map f (drop n l) = drop n (map f l).
Proof. exact (fmap_drop f n l). Qed.

Lemma tail_of_recent (k : nat) (df : DataFrame) :
  (k <= 30)%nat -> (30 <= length df)%nat ->
  tail k (map price (tail 30 df)) = take k (drop (length df - k) (map price df)).
Proof.
  intros Hk Hn. unfold tail. rewrite length_map, length_drop.
  rewrite map_drop, drop_drop.
  replace (length df - 30 + (length df - (length df - 30) - k))%nat
    with (length df - k)%nat by lia.
  rewrite take_ge; [done|]. rewrite length_drop, length_map. lia.
Qed.

Lemma rolling_mean_last (k : nat) (prices : list Q) :
  (0 < k)%nat -> (k <= length prices)%nat ->
  rolling_mean k prices !! (length prices - 1)%nat
  = Some (mean (take k (drop (length prices - k) prices))).
Proof.
  intros Hk Hn. unfold rolling_mean.
  rewrite map_lookup, lookup_seq_lt by lia. cbn [fmap option_fmap option_map].
  rewrite Nat.add_0_l.
  destruct (decide (S (length prices - 1) < k)%nat); [lia|].
  by replace (S (length prices - 1) - k)%nat with (length prices - k)%nat by lia.
Qed.

(** X11. For a series of at least 30 points the two rolling-mean components
    of the prediction vector are, whatever the target date, the price_ma_7
    and price_ma_30 values of the last row of the training table: the means
    of the last 7 and the last 30 observed prices. *)
Theorem X11_rolling_means_of_last_row (st : MarketPricePredictor) (crop : string)
    (d : datetime) (df : DataFrame) (features : list float64) :
  historical_data st !! crop = Some df ->
  (30 <= length df)%nat ->
  _prepare_prediction_features st crop d = Ok features ->
  feature_columns !! 11%nat = Some "price_ma_7" /\
  feature_columns !! 12%nat = Some "price_ma_30" /\
  features !! 11%nat
  = column "price_ma_7" <$> feature_table df !! (length df - 1)%nat /\
  features !! 12%nat
  = column "price_ma_30" <$> feature_table df !! (length df - 1)%nat /\
  features !! 11%nat = Some (mean (take 7 (drop (length df - 7) (map price df)))) /\
  features !! 12%nat = Some (mean (take 30 (drop (length df - 30) (map price df)))).
Proof.
  intros Hdf Hlen Hfeat.
  unfold _prepare_prediction_features in Hfeat. rewrite Hdf in Hfeat.
  apply Ok_inj in Hfeat. subst features.
  destruct (lookup_lt_is_Some_2 df (length df - 1)%nat) as [r Hr]; [lia|].
  assert (Hrow7 : column "price_ma_7" <$> feature_table df !! (length df - 1)%nat
                  = Some (mean (take 7 (drop (length df - 7) (map price df))))).
  { unfold feature_table. rewrite list_lookup_imap, Hr.
    cbn [fmap option_fmap option_map]. f_equal.
    change (at_index (rolling_mean 7 (map price df)) (length df - 1)
            = mean (take 7 (drop (length df - 7) (map price df)))).
    unfold at_index. rewrite <- (length_map price df) at 1.
    rewrite rolling_mean_last by (rewrite ?length_map; lia).
    by rewrite length_map. }
  assert (Hrow30 : column "price_ma_30" <$> feature_table df !! (length df - 1)%nat
                   = Some (mean (take 30 (drop (length df - 30) (map price df))))).
  { unfold feature_table. rewrite list_lookup_imap, Hr.
    cbn [fmap option_fmap option_map]. f_equal.
    change (at_index (rolling_mean 30 (map price df)) (length df - 1)
            = mean (take 30 (drop (length df - 30) (map price df)))).
    unfold at_index. rewrite <- (length_map price df) at 1.
    rewrite rolling_mean_last by (rewrite ?length_map; lia).
    by rewrite length_map. }
  rewrite Hrow7, Hrow30.
  split; [reflexivity|]. split; [reflexivity|].
  cbn [lookup list_lookup].
  rewrite (tail_of_recent 7 df) by lia. rewrite (tail_of_recent 30 df) by lia.
  done.
Qed.

(** ** Persistence *)


(** X13. Saving and loading are idempotent and local: saving twice is saving
    once, loading twice is loading once (also for an incomplete artifact),
    saving leaves every other path of the store as it was and never changes
    which paths are writable, and loading never touches the histories or the
    database. *)
Theorem X13_save_load_idempotent (st : MarketPricePredictor) (filepath : string)
    (fs : FileSystem) :
  save_models st filepath (save_models st filepath fs) = save_models st filepath fs /\
  load_models filepath fs (load_models filepath fs st) = load_models filepath fs st /\
  (forall other : string, other <> filepath ->
     files (save_models st filepath fs) !! other = files fs !! other) /\
  unwritable (save_models st filepath fs) = unwritable fs /\
  historical_data (load_models filepath fs st) = historical_data st /\
  db (load_models filepath fs st) = db st.
Proof.
  split; [|split; [|split; [|split; [|split]]]].
  - unfold save_models.
    destruct (decide (filepath ∈ unwritable fs)) as [Hin | Hout].
    + by destruct (decide (filepath ∈ unwritable fs)).
    + cbn [unwritable files].
      destruct (decide (filepath ∈ unwritable fs)); [done|].
      by rewrite insert_insert_eq.
  - unfold load_models.
    destruct (files fs !! filepath) as [[[ms|] [ss|] [les|]|]|]; done.
  - intros other Hne. unfold save_models.
    destruct (decide (filepath ∈ unwritable fs)); [done|].
    cbn [files]. by rewrite lookup_insert_ne.
  - unfold save_models. by destruct (decide (filepath ∈ unwritable fs)).
  - unfold load_models.
    destruct (files fs !! filepath) as [[[ms|] [ss|] [les|]|]|]; done.
  - unfold load_models.
    destruct (files fs !! filepath) as [[[ms|] [ss|] [les|]|]|]; done.
Qed.

(** ** Recording an observation *)

(** X14. With a writable database, recording an observation appends exactly
    one row to the market_prices table, after the rows already there: it has
    the commodity, market, price, unit, quality and source of the
    observation and its calendar day at midnight (the time of day is
    dropped). With a database that rejects the write the predictor is left
    as it was. *)
Theorem X14_add_price_data_appends_row (pd : PriceData) (st : MarketPricePredictor) :
  (db_writable (db st) = true ->
   exists row : PriceData,
     market_prices (db (add_price_data pd st)) = market_prices (db st) ++ [row] /\
     db_writable (db (add_price_data pd st)) = true /\
     crop_name row = crop_name pd /\ market_name row = market_name pd /\
     price row = price pd /\ price_unit row = price_unit pd /\
     quality row = quality pd /\ source row = source pd /\
     toordinal (date row) = toordinal (date pd) /\
     timestamp (date row) = toordinal (date pd) * micros_per_day /\
     timestamp (date row) <= timestamp (date pd) < timestamp (date row) + micros_per_day) /\
  (db_writable (db st) = false -> add_price_data pd st = st).
Proof.
  split.
  - intros Hw. unfold add_price_data. rewrite Hw. eexists. cbn [db market_prices db_writable].
    split; [reflexivity|]. cbn [crop_name market_name price price_unit quality source date].
    repeat (split; [reflexivity|]).
    rewrite toordinal_at_midnight. split; [reflexivity|]. split; [reflexivity|].
    unfold at_midnight, toordinal, micros_per_day. cbn [timestamp].
    pose proof (Z.div_mod (timestamp (date pd)) 86400000000 ltac:(lia)) as Hdm.
    pose proof (Z.mod_pos_bound (timestamp (date pd)) 86400000000 ltac:(lia)) as Hb.
    lia.
  - intros Hw. unfold add_price_data. by rewrite Hw.
Qed.


(** ** The rounded price *)

(** X15. The predicted price of a returned prediction is the output of the
    stored model on the scaled feature vector, rounded to two decimals: a
    finite output gives a whole number of hundredths at most 0.005 away from
    it, and a NaN or infinite output is returned as it is. *)
Theorem X15_predicted_price_rounded (st : MarketPricePredictor) (crop : string)
    (date_arg : option datetime) (w : World) (p : PricePrediction) :
  fst (predict_price st crop date_arg w) = Ok p ->
  exists (m : estimator) (sc : scaler) (features : list float64),
    models st !! crop = Some m /\ scalers st !! crop = Some sc /\
    _prepare_prediction_features st crop (prediction_date p) = Ok features /\
    predicted_price p = round2 (predict m (transform sc features)) /\
    (forall q : Q,
       predict m (transform sc features) = Fin q ->
       exists z : Z,
         predicted_price p = Fin (inject_Z z / 100) /\
         (q - (1 # 200) <= inject_Z z / 100)%Q /\
         (inject_Z z / 100 <= q + (1 # 200))%Q) /\
    (forall x : float64,
       predict m (transform sc features) = x -> (forall q, x <> Fin q) ->
       predicted_price p = x).
Proof.
  intros Hp.
  destruct (predict_price_Ok_inv st crop date_arg w p Hp)
    as (m & sc & df & features & w1 & Hm & Hs & _ & Hf & _ & _ & Heq).
  exists m, sc, features.
  assert (Hprice : predicted_price p = round2 (predict m (transform sc features)))
    by (by rewrite Heq).
  split; [done|]. split; [done|]. split; [done|]. split; [done|]. split.
  - intros q Hq. rewrite Hprice, Hq. cbn [round2].
    exists (round_half_even (q * 100)). split; [reflexivity|].
    destruct (round_half_even_close (q * 100)) as [Hlo Hhi].
    split.
    + apply Qle_shift_div_l; [reflexivity | lra].
    + apply Qle_shift_div_r; [reflexivity | lra].
  - intros x Hx Hnf. rewrite Hprice, Hx.
    destruct x as [q| | |]; [by destruct (Hnf q) | done | done | done].
Qed.

(** ** Market recommendations *)

Lemma trend_sentences_cases (up total : nat) :
  trend_sentences up total
    = ["Most crops showing upward price trends - favorable market conditions"] \/
  trend_sentences up total
    = ["Most crops showing downward price trends - consider holding produce"] \/
  trend_sentences up total = [].
Proof.
  unfold trend_sentences.
  destruct (Qltb _ _); [by left|].
  destruct (Qltb _ _); [by right; left | by right; right].
Qed.

(** X16. The market recommendations are at most three sentences: at most one
    about the direction of the market (the upward and the downward sentence
    never appear together), then at most one naming the volatile commodities,
    then at most one naming the commodities in peak season. With no
    commodity analysed there is none. The clock is read exactly once. *)
Theorem X16_market_recommendations (insights : Insights) (w : World) :
  let r := fst (_generate_market_recommendations insights w) in
  (length r <= 3)%nat /\
  ~ ("Most crops showing upward price trends - favorable market conditions" ∈ r /\
     "Most crops showing downward price trends - consider holding produce" ∈ r) /\
  (price_trends insights = [] -> seasonal_patterns insights = [] -> r = []) /\
  snd (_generate_market_recommendations insights w)
  = mk_World (rng_tape w) (rng_pos w) (clock w) (S (clock_pos w)).
Proof.
  intros r. subst r. unfold _generate_market_recommendations. cbv zeta. cbn [fst snd].
  set (up := length (List.filter _ (price_trends insights))).
  set (total := length (price_trends insights)).
  set (hv := map fst (List.filter _ (price_trends insights))).
  set (sc := map fst (List.filter _ (seasonal_patterns insights))).
  split; [|split; [|split]].
  - rewrite !length_app.
    assert (length (trend_sentences up total) <= 1)%nat.
    { destruct (trend_sentences_cases up total) as [-> | [-> | ->]]; simpl; lia. }
    destruct hv, sc; simpl; lia.
  - intros [HA HB].
    assert (Hno : forall x rest,
              "Most crops showing upward price trends - favorable market conditions"
                <> x /\
              "Most crops showing downward price trends - consider holding produce"
                <> x ->
              forall y, (y = "Most crops showing upward price trends - favorable market conditions" \/
                         y = "Most crops showing downward price trends - consider holding produce") ->
                        y ∈ [x] ++ rest -> y ∈ rest).
    { intros x rest [H1 H2] y Hy Hin. apply elem_of_app in Hin as [Hin | Hin]; [|done].
      apply list_elem_of_singleton in Hin. destruct Hy; congruence. }
    assert (Htail : forall y,
              (y = "Most crops showing upward price trends - favorable market conditions" \/
               y = "Most crops showing downward price trends - consider holding produce") ->
              y ∈ (match hv with
                   | [] => []
                   | _ => ["High volatility detected in: " +:+ join ", " hv
                           +:+ " - monitor closely"]
                   end)
                  ++ (match sc with
                      | [] => []
                      | _ => ["Peak season for: " +:+ join ", " sc
                              +:+ " - optimal selling time"]
                      end) -> False).
    { intros y Hy Hin. apply elem_of_app in Hin as [Hin | Hin].
      - destruct hv; [by apply elem_of_nil in Hin|].
        apply list_elem_of_singleton in Hin. destruct Hy; subst y; discriminate Hin.
      - destruct sc; [by apply elem_of_nil in Hin|].
        apply list_elem_of_singleton in Hin. destruct Hy; subst y; discriminate Hin. }
    apply elem_of_app in HA as [HA | HA]; [|by eapply Htail; [left|]].
    apply elem_of_app in HB as [HB | HB]; [|by eapply Htail; [right|]].
    destruct (trend_sentences_cases up total) as [E | [E | E]]; rewrite E in HA, HB.
    + apply list_elem_of_singleton in HB. discriminate HB.
    + apply list_elem_of_singleton in HA. discriminate HA.
    + by apply elem_of_nil in HA.
  - intros Ht Hs. subst up total hv sc. rewrite Ht, Hs. reflexivity.
  - reflexivity.
Qed.

End MoreProperties.

(** ** Instances of the further properties *)

Import MoreFixture.

Lemma rice_prediction_eq :
  fst (predict_price trained_value "Rice" (Some next_day) world_zero)
  = Ok rice_prediction.
Proof. vm_compute; reflexivity. Qed.

Lemma rice_features_eq :
  _prepare_prediction_features trained_value "Rice" next_day = Ok rice_features.
Proof. vm_compute; reflexivity. Qed.

Lemma X1_witness :
  (25 * 100 == inject_Z 2500)%Q /\ (35 * 100 == inject_Z 3500)%Q /\ (25 <= 35)%Q /\
  forall r : PriceData,
    r ∈ fst (_generate_historical_prices "Rice" 25 35 30 world_zero) ->
    (25 <= price r)%Q /\ (price r <= 35)%Q.
Proof.
  assert (H1 : (25 * 100 == inject_Z 2500)%Q) by reflexivity.
  assert (H2 : (35 * 100 == inject_Z 3500)%Q) by reflexivity.
  assert (H3 : (25 <= 35)%Q) by (unfold Qle; simpl; lia).
  split; [exact H1|]. split; [exact H2|]. split; [exact H3|].
  exact (X1_generated_prices_within_bounds "Rice" 25 35 30 2500 3500 world_zero
           H1 H2 H3).
Defined.


Lemma X8_witness :
  fst (predict_price trained_value "Rice" (Some next_day) world_zero)
  = Ok rice_prediction /\
  dom (factors rice_prediction)
  = ({["seasonal_demand"; "price_trend"; "market_volatility";
       "supply_pressure"; "demand_pressure"]} : gset string).
Proof.
  split; [exact rice_prediction_eq|].
  exact (proj1 (X8_prediction_factors trained_value "Rice" (Some next_day)
                  world_zero rice_prediction rice_prediction_eq)).
Defined.

Lemma X9_witness :
  fst (predict_price trained_value "Rice" (Some next_day) world_zero)
  = Ok rice_prediction /\
  exists t v : string,
    recommendation rice_prediction
    = join " | " (t :: seasonal_sentence (month (prediction_date rice_prediction))
                    ++ [v]).
Proof.
  split; [exact rice_prediction_eq|].
  destruct (X9_recommendation_shape trained_value "Rice" (Some next_day)
              world_zero rice_prediction rice_prediction_eq)
    as (t & v & _ & _ & Hrec).
  exists t, v. exact Hrec.
Defined.

Lemma X11_witness :
  historical_data trained_value !! "Rice" = Some rice /\
  (30 <= length rice)%nat /\
  _prepare_prediction_features trained_value "Rice" next_day = Ok rice_features /\
  rice_features !! 11%nat
  = column "price_ma_7" <$> feature_table rice !! (length rice - 1)%nat.
Proof.
  assert (H1 : historical_data trained_value !! "Rice" = Some rice)
    by (vm_compute; reflexivity).
  assert (H2 : (30 <= length rice)%nat) by (vm_compute; lia).
  split; [exact H1|]. split; [exact H2|]. split; [exact rice_features_eq|].
  destruct (X11_rolling_means_of_last_row trained_value "Rice" next_day rice
              rice_features H1 H2 rice_features_eq) as (_ & _ & H7 & _).
  exact H7.
Defined.


Lemma X15_witness :
  fst (predict_price trained_value "Rice" (Some next_day) world_zero)
  = Ok rice_prediction /\
  exists (m : estimator) (sc : scaler) (features : list float64),
    predicted_price rice_prediction = round2 (predict m (transform sc features)).
Proof.
  split; [exact rice_prediction_eq|].
  destruct (X15_predicted_price_rounded trained_value "Rice" (Some next_day)
              world_zero rice_prediction rice_prediction_eq)
    as (m & sc & features & _ & _ & _ & Hp & _).
  exists m, sc, features. exact Hp.
Defined.

(** * Properties of the market insights *)

Section InsightProperties.
Context `{SK : Sklearn} `{NP : Numpy} `{PF : Polyfit}.

(** ** Dictionaries in insertion order *)

Lemma dict_set_keys_elem {V} (k : string) (v : V) (d : list (string * V)) (c : string) :
  c ∈ map fst (dict_set k v d) <-> c = k \/ c ∈ map fst d.
Proof.
  induction d as [|[k' v'] d IH]; simpl.
  - rewrite list_elem_of_singleton. split; [by left | intros [H | H]; [done|]].
    by apply elem_of_nil in H.
  - destruct (String.eqb_spec k k') as [-> | Hne]; simpl.
    + rewrite !elem_of_cons. tauto.
    + rewrite !elem_of_cons, IH. tauto.
Qed.

Lemma dict_set_keys_eq {V V'} (k : string) (v : V) (v' : V')
    (d : list (string * V)) : forall d' : list (string * V'),
  map fst d = map fst d' -> map fst (dict_set k v d) = map fst (dict_set k v' d').
Proof.
  induction d as [|[k1 v1] d IH]; intros [|[k2 v2] d'] Heq; simpl in *;
    try discriminate; [done|].
  injection Heq as -> Heq.
  destruct (String.eqb k k2); simpl; [by rewrite Heq|].
  f_equal. by apply IH.
Qed.

Lemma dict_set_NoDup {V} (k : string) (v : V) (d : list (string * V)) :
  NoDup (map fst d) -> NoDup (map fst (dict_set k v d)).
Proof.
  induction d as [|[k' v'] d IH]; simpl; intros Hnd.
  - apply NoDup_singleton.
  - apply NoDup_cons in Hnd as [Hnotin Hnd].
    destruct (String.eqb_spec k k') as [-> | Hne]; simpl.
    + by apply NoDup_cons.
    + apply NoDup_cons. split; [|by apply IH].
      rewrite dict_set_keys_elem. intros [-> | Hin]; [done | by apply Hnotin].
Qed.

(** ** Extremes *)

Lemma Qmaximum_ge (l : list Q) : forall a : Q,
  (a <= Qmaximum a l)%Q /\ forall x, x ∈ l -> (x <= Qmaximum a l)%Q.
Proof.
  unfold Qmaximum.
  induction l as [|b l IH]; intros a; simpl.
  - split; [apply Qle_refl | intros x Hx; by apply elem_of_nil in Hx].
  - destruct (Qltb a b) eqn:E.
    + apply Qltb_lt in E. destruct (IH b) as [H1 H2]. split; [lra|].
      intros x Hx. apply elem_of_cons in Hx as [-> | Hx]; [done | by apply H2].
    + apply Qltb_ge in E. destruct (IH a) as [H1 H2]. split; [done|].
      intros x Hx. apply elem_of_cons in Hx as [-> | Hx]; [lra | by apply H2].
Qed.

Lemma Qminimum_le (l : list Q) : forall a : Q,
  (Qminimum a l <= a)%Q /\ forall x, x ∈ l -> (Qminimum a l <= x)%Q.
Proof.
  unfold Qminimum.
  induction l as [|b l IH]; intros a; simpl.
  - split; [apply Qle_refl | intros x Hx; by apply elem_of_nil in Hx].
  - destruct (Qltb b a) eqn:E.
    + apply Qltb_lt in E. destruct (IH b) as [H1 H2]. split; [lra|].
      intros x Hx. apply elem_of_cons in Hx as [-> | Hx]; [done | by apply H2].
    + apply Qltb_ge in E. destruct (IH a) as [H1 H2]. split; [done|].
      intros x Hx. apply elem_of_cons in Hx as [-> | Hx]; [lra | by apply H2].
Qed.

Lemma last_default_cons {A} (l : list A) : forall a b : A,
  List.last (b :: l) a = List.last l b.
Proof.
  induction l as [|c l IH]; intros a b; [done|].
  change (List.last (b :: c :: l) a) with (List.last (c :: l) a).
  by rewrite !IH.
Qed.

Lemma last_default_elem {A} (l : list A) : forall a : A, List.last l a ∈ a :: l.
Proof.
  induction l as [|b l IH]; intros a.
  - apply list_elem_of_here.
  - rewrite last_default_cons. apply list_elem_of_further, IH.
Qed.

Lemma last_default_stdpp {A} (l : list A) : forall a : A,
  last (a :: l) = Some (List.last l a).
Proof.
  induction l as [|b l IH]; intros a; [done|].
  by rewrite last_cons_cons, IH, last_default_cons.
Qed.

Lemma last_default_map {A B} (f : A -> B) (l : list A) : forall a : A,
  List.last (map f l) (f a) = f (List.last l a).
Proof.
  induction l as [|b l IH]; intros a; [done|].
  change (map f (b :: l)) with (f b :: map f l).
  by rewrite !last_default_cons, IH.
Qed.

Lemma round_half_even_mono (p q : Q) :
  (p <= q)%Q -> round_half_even p <= round_half_even q.
Proof.
  intros Hpq.
  pose proof (Qfloor_le p) as Hplo. pose proof (Qlt_floor p) as Hphi.
  pose proof (Qfloor_le q) as Hqlo. pose proof (Qlt_floor q) as Hqhi.
  rewrite inject_Z_plus in Hphi, Hqhi. change (inject_Z 1) with 1%Q in Hphi, Hqhi.
  assert (Hfl : Qfloor p <= Qfloor q) by (by apply Qfloor_resp_le).
  destruct (Z.eq_dec (Qfloor p) (Qfloor q)) as [Heq | Hne].
  - unfold round_half_even. rewrite <- Heq.
    destruct (Qltb (p - inject_Z (Qfloor p)) (1 # 2)) eqn:E1.
    { destruct (Qltb (q - inject_Z (Qfloor p)) (1 # 2)); [lia|].
      destruct (Qltb (1 # 2) (q - inject_Z (Qfloor p))); [lia|].
      destruct (Z.even (Qfloor p)); lia. }
    apply Qltb_ge in E1.
    assert (E1' : Qltb (q - inject_Z (Qfloor p)) (1 # 2) = false).
    { apply Qltb_ge. lra. }
    rewrite E1'.
    destruct (Qltb (1 # 2) (p - inject_Z (Qfloor p))) eqn:E2.
    { apply Qltb_lt in E2.
      assert (E2' : Qltb (1 # 2) (q - inject_Z (Qfloor p)) = true).
      { apply Qltb_lt. lra. }
      rewrite E2'. lia. }
    destruct (Qltb (1 # 2) (q - inject_Z (Qfloor p))); [destruct (Z.even _); lia | lia].
  - assert (Hp : round_half_even p <= Qfloor p + 1).
    { unfold round_half_even.
      destruct (Qltb _ _); [lia|]. destruct (Qltb _ _); [lia|].
      destruct (Z.even _); lia. }
    assert (Hq : Qfloor q <= round_half_even q).
    { unfold round_half_even.
      destruct (Qltb _ _); [lia|]. destruct (Qltb _ _); [lia|].
      destruct (Z.even _); lia. }
    lia.
Qed.

Lemma round2_mono (p q : Q) :
  (p <= q)%Q ->
  exists p' q', round2 (Fin p) = Fin p' /\ round2 (Fin q) = Fin q' /\ (p' <= q')%Q.
Proof.
  intros Hpq. eexists _, _. split; [reflexivity|]. split; [reflexivity|].
  assert (H : round_half_even (p * 100) <= round_half_even (q * 100)).
  { apply round_half_even_mono. lra. }
  rewrite Zle_Qle in H.
  unfold Qdiv. apply Qmult_le_compat_r; [exact H | discriminate].
Qed.

(** ** Months of a history *)

Lemma insert_month_elem (m : Z) (l : list Z) (y : Z) :
  y ∈ insert_month m l <-> y = m \/ y ∈ l.
Proof.
  induction l as [|x l IH]; simpl.
  - rewrite list_elem_of_singleton. split; [by left | intros [H | H]; [done|]].
    by apply elem_of_nil in H.
  - destruct (m <? x); [by rewrite elem_of_cons|].
    destruct (Z.eqb_spec m x) as [-> | Hne].
    + rewrite elem_of_cons. tauto.
    + rewrite !elem_of_cons, IH. tauto.
Qed.

Lemma insert_month_nonempty (m : Z) (l : list Z) : insert_month m l <> [].
Proof.
  destruct l as [|x l]; simpl; [done|].
  destruct (m <? x); [done|]. by destruct (m =? x).
Qed.

Lemma month_keys_elem (df : DataFrame) (y : Z) :
  y ∈ month_keys df <-> exists r, r ∈ df /\ month (date r) = y.
Proof.
  unfold month_keys. induction df as [|r df IH]; simpl.
  - split; [intros H; by apply elem_of_nil in H|].
    intros (r & Hr & _). by apply elem_of_nil in Hr.
  - rewrite insert_month_elem, IH. split.
    + intros [-> | (r' & Hr' & Hm)].
      * exists r. split; [apply list_elem_of_here | done].
      * exists r'. split; [by apply list_elem_of_further | done].
    + intros (r' & Hr' & Hm). apply elem_of_cons in Hr' as [-> | Hr'].
      * by left.
      * right. by exists r'.
Qed.

Lemma fold_best_elem {A} (f : A -> A -> bool) (l : list A) : forall x : A,
  fold_left (fun best y => if f best y then y else best) l x ∈ x :: l.
Proof.
  induction l as [|y l IH]; intros x; simpl.
  - apply list_elem_of_here.
  - destruct (f x y).
    + apply list_elem_of_further, IH.
    + specialize (IH x). apply elem_of_cons in IH as [-> | IH].
      * apply list_elem_of_here.
      * by do 2 apply list_elem_of_further.
Qed.

Lemma idxmax_elem (s : list (Z * Q)) (m : Z) : idxmax s = Some m -> m ∈ map fst s.
Proof.
  destruct s as [|x rest]; [done|]. unfold idxmax. intros [= <-].
  apply list_elem_of_fmap. eexists. split; [reflexivity|].
  apply (fold_best_elem (fun best y => Qltb (snd best) (snd y))).
Qed.

Lemma idxmin_elem (s : list (Z * Q)) (m : Z) : idxmin s = Some m -> m ∈ map fst s.
Proof.
  destruct s as [|x rest]; [done|]. unfold idxmin. intros [= <-].
  apply list_elem_of_fmap. eexists. split; [reflexivity|].
  apply (fold_best_elem (fun best y => Qltb (snd y) (snd best))).
Qed.

Lemma monthly_avg_keys (df : DataFrame) : map fst (monthly_avg df) = month_keys df.
Proof.
  unfold monthly_avg. rewrite map_map. simpl. apply map_id.
Qed.

Lemma monthly_avg_nonempty (r : PriceData) (df : DataFrame) :
  monthly_avg (r :: df) <> [].
Proof.
  intros H. apply (f_equal (map fst)) in H. rewrite monthly_avg_keys in H.
  by apply insert_month_nonempty in H.
Qed.

(** ** One commodity *)

(** The three outcomes of the analysis of one history. *)
Lemma analyse_crop_cases (df : DataFrame) :
  (df = [] /\ analyse_crop df = inl IndexError) \/
  (df <> [] /\ polyfit_slope (tail 30 (map price df)) = None /\
   analyse_crop df = inl PolyfitError) \/
  (df <> [] /\ exists slope o t p,
     polyfit_slope (tail 30 (map price df)) = Some slope /\
     analyse_crop df = inr (o, t, p) /\
     (exists r0, last df = Some r0 /\ current_price o = round2 (Fin (price r0))) /\
     (exists lo cur hi, price_range_min o = Fin lo /\ current_price o = Fin cur /\
                        price_range_max o = Fin hi /\ (lo <= cur)%Q /\ (cur <= hi)%Q) /\
     trend_direction t = (if fgt slope (Fin 0) then "upward" else "downward") /\
     (exists r1, r1 ∈ df /\ month (date r1) = peak_month p) /\
     (exists r2, r2 ∈ df /\ month (date r2) = low_month p)).
Proof.
  destruct df as [|r df]; [by left|]. right.
  unfold analyse_crop.
  change (map price (r :: df)) with (price r :: map price df).
  cbv zeta.
  destruct (polyfit_slope (tail 30 (price r :: map price df))) as [slope|] eqn:Hs;
    [right | by left].
  split; [done|].
  pose proof (monthly_avg_nonempty r df) as Hne.
  pose proof (idxmax_elem (monthly_avg (r :: df))) as Hmax.
  pose proof (idxmin_elem (monthly_avg (r :: df))) as Hmin.
  rewrite monthly_avg_keys in Hmax, Hmin.
  destruct (monthly_avg (r :: df)) as [|x rest] eqn:Hm; [done|].
  change (idxmax (x :: rest)) with
    (Some (fst (fold_left (fun best y => if Qltb (snd best) (snd y) then y else best)
                          rest x))) in *.
  change (idxmin (x :: rest)) with
    (Some (fst (fold_left (fun best y => if Qltb (snd y) (snd best) then y else best)
                          rest x))) in *.
  change (map snd (x :: rest)) with (snd x :: map snd rest).
  cbv beta iota.
  eexists slope, _, _, _. split; [done|]. split; [reflexivity|].
  cbn [current_price price_range_min price_range_max trend_direction peak_month low_month].
  split; [|split; [|split; [done|split]]].
  - exists (List.last df r). split; [apply last_default_stdpp|].
    by rewrite last_default_map.
  - set (cur := List.last (map price df) (price r)).
    assert (Hin : cur ∈ price r :: map price df) by apply last_default_elem.
    destruct (Qminimum_le (map price df) (price r)) as [Hlo1 Hlo2].
    destruct (Qmaximum_ge (map price df) (price r)) as [Hhi1 Hhi2].
    assert (Hlo : (Qminimum (price r) (map price df) <= cur)%Q).
    { apply elem_of_cons in Hin as [-> | Hin]; [done | by apply Hlo2]. }
    assert (Hhi : (cur <= Qmaximum (price r) (map price df))%Q).
    { apply elem_of_cons in Hin as [-> | Hin]; [done | by apply Hhi2]. }
    destruct (round2_mono _ _ Hlo) as (lo & c1 & E1 & E2 & Hle1).
    destruct (round2_mono _ _ Hhi) as (c2 & hi & E3 & E4 & Hle2).
    exists lo, c1, hi. rewrite E1, E2, E4. repeat split; try done.
    rewrite E2 in E3. injection E3 as <-. done.
  - apply month_keys_elem. by apply Hmax.
  - apply month_keys_elem. by apply Hmin.
Qed.

(** ** The loop over the commodities *)

Lemma dict_set_keys_absent {V} (k : string) (v : V) (d : list (string * V)) :
  k ∉ map fst d -> map fst (dict_set k v d) = map fst d ++ [k].
Proof.
  induction d as [|[k' v'] d IH]; simpl; intros Hk; [done|].
  apply not_elem_of_cons in Hk as [Hne Hk].
  destruct (String.eqb_spec k k') as [-> | _]; [done|].
  simpl. f_equal. by apply IH.
Qed.

Lemma analyse_all_keys (st : MarketPricePredictor) (crops : list string) :
  forall acc res,
  analyse_all st crops acc = inr res ->
  NoDup (map fst (fst acc) ++ crops) ->
  map fst (price_trends (snd acc)) = map fst (fst acc) ->
  map fst (seasonal_patterns (snd acc)) = map fst (fst acc) ->
  map fst (fst res)
  = map fst (fst acc)
    ++ List.filter (fun c => bool_decide (is_Some (historical_data st !! c))) crops /\
  map fst (price_trends (snd res)) = map fst (fst res) /\
  map fst (seasonal_patterns (snd res)) = map fst (fst res).
Proof.
  induction crops as [|crop rest IH]; intros acc res H Hnd Ht Hp; simpl in H.
  - injection H as <-. simpl. by rewrite app_nil_r.
  - apply NoDup_app in Hnd as (Hnd1 & Hdisj & Hnd2).
    apply NoDup_cons in Hnd2 as [Hcrop Hnd2].
    assert (Hfresh : crop ∉ map fst (fst acc)).
    { intros Hin. apply (Hdisj _ Hin). apply list_elem_of_here. }
    simpl. destruct (historical_data st !! crop) as [df|] eqn:Hh.
    + destruct (analyse_crop df) as [e | [[o t] p]]; [discriminate|].
      apply IH in H; cbn [fst snd price_trends seasonal_patterns] in *.
      * destruct H as (H1 & H2 & H3). split; [|done].
        rewrite H1, dict_set_keys_absent by done.
        rewrite bool_decide_true by eauto. by rewrite <- app_assoc.
      * rewrite dict_set_keys_absent by done. rewrite <- app_assoc. simpl.
        apply NoDup_app. split; [done|]. split; [done|]. by apply NoDup_cons.
      * by apply dict_set_keys_eq.
      * by apply dict_set_keys_eq.
    + apply IH in H; [| |done|done].
      * destruct H as (H1 & H2 & H3). split; [|done].
        rewrite H1. rewrite bool_decide_false; [done|]. by intros [? ?].
      * apply NoDup_app. split; [done|]. split; [|done].
        intros x Hx Hin. apply (Hdisj x Hx). by apply list_elem_of_further.
Qed.

Lemma analyse_all_nothing (st : MarketPricePredictor) (crops : list string) acc :
  (forall c, c ∈ crops -> historical_data st !! c = None) ->
  analyse_all st crops acc = inr acc.
Proof.
  induction crops as [|crop rest IH]; intros Hnone; simpl; [done|].
  rewrite (Hnone crop) by apply list_elem_of_here.
  apply IH. intros c Hc. apply Hnone. by apply list_elem_of_further.
Qed.

Lemma analyse_all_fails (st : MarketPricePredictor) (crops : list string) :
  forall acc,
  (exists e, analyse_all st crops acc = inl e) <->
  (exists c df, c ∈ crops /\ historical_data st !! c = Some df /\
                (df = [] \/ polyfit_slope (tail 30 (map price df)) = None)).
Proof.
  induction crops as [|crop rest IH]; intros acc; simpl.
  - split; [by intros [e He]|]. intros (c & df & Hc & _). by apply elem_of_nil in Hc.
  - destruct (historical_data st !! crop) as [df0|] eqn:Hh.
    + destruct (analyse_crop_cases df0)
        as [[Hd Ha] | [(Hd & Hs & Ha) | (Hd & slope & o & t & p & Hs & Ha & _)]];
        rewrite Ha.
      * split; [|by eexists]. intros _. exists crop, df0.
        split; [apply list_elem_of_here|]. split; [done | by left].
      * split; [|by eexists]. intros _. exists crop, df0.
        split; [apply list_elem_of_here|]. split; [done | by right].
      * rewrite IH. split.
        -- intros (c & df & Hc & Hdf & Hbad). exists c, df.
           split; [by apply list_elem_of_further | done].
        -- intros (c & df & Hc & Hdf & Hbad).
           apply elem_of_cons in Hc as [-> | Hc]; [|by exists c, df].
           rewrite Hh in Hdf. injection Hdf as <-.
           destruct Hbad as [Hbad | Hbad]; [done | congruence].
    + rewrite IH. split.
      * intros (c & df & Hc & Hdf & Hbad). exists c, df.
        split; [by apply list_elem_of_further | done].
      * intros (c & df & Hc & Hdf & Hbad).
        apply elem_of_cons in Hc as [-> | Hc]; [congruence | by exists c, df].
Qed.

Lemma analyse_all_error_kind (st : MarketPricePredictor) (crops : list string) :
  forall acc e, analyse_all st crops acc = inl e -> e <> IdxValueError.
Proof.
  induction crops as [|crop rest IH]; intros acc e; simpl; [done|].
  destruct (historical_data st !! crop) as [df0|]; [|apply IH].
  destruct (analyse_crop_cases df0)
    as [[Hd Ha] | [(Hd & Hs & Ha) | (Hd & slope & o & t & p & Hs & Ha & _)]];
    rewrite Ha; [by intros [= <-] | by intros [= <-] | apply IH].
Qed.

(** X17. A successful report has the same commodities in its three
    dictionaries: the requested ones that have a history, in the order they
    were requested. *)
Theorem X17_report_commodities (st : MarketPricePredictor) (keys : list string)
    (crop_name : option string) (w : World)
    (ov : list (string * Overview)) (ins : Insights) (recs : list string) :
  NoDup keys ->
  fst (get_market_insights st keys crop_name w) = InsightsOk ov ins recs ->
  map fst ov
  = List.filter (fun c => bool_decide (is_Some (historical_data st !! c)))
                (crops_to_analyze keys crop_name) /\
  map fst (price_trends ins) = map fst ov /\
  map fst (seasonal_patterns ins) = map fst ov.
Proof.
  intros Hnd. unfold get_market_insights.
  destruct (analyse_all st (crops_to_analyze keys crop_name) ([], mk_Insights [] []))
    as [e | res] eqn:Hall; [discriminate|].
  cbv zeta. cbn [fst]. intros [= <- <- _].
  apply analyse_all_keys in Hall; [exact Hall | | done | done].
  simpl. unfold crops_to_analyze.
  destruct crop_name as [c|]; [|done].
  destruct (String.eqb c ""); [done|]. apply NoDup_singleton.
Qed.

(** X18. When none of the requested commodities has a history (an unknown
    name, or no history at all), the report is not an error: it is empty,
    with no recommendation, and the clock has been read once. *)
Theorem X18_report_of_nothing (st : MarketPricePredictor) (keys : list string)
    (crop_name : option string) (w : World) :
  (forall c, c ∈ crops_to_analyze keys crop_name -> historical_data st !! c = None) ->
  get_market_insights st keys crop_name w
  = (InsightsOk [] (mk_Insights [] []) [],
     mk_World (rng_tape w) (rng_pos w) (clock w) (S (clock_pos w))).
Proof.
  intros Hnone. unfold get_market_insights.
  by rewrite analyse_all_nothing.
Qed.

(** X19. The report is an error exactly when one of the requested commodities
    has an empty history or a history whose last thirty prices [np.polyfit]
    rejects; the error is then never the one of [idxmax], and the clock has
    not been read. *)
Theorem X19_report_errors (st : MarketPricePredictor) (keys : list string)
    (crop_name : option string) (w : World) :
  ((exists e, fst (get_market_insights st keys crop_name w) = InsightsError e) <->
   (exists c df, c ∈ crops_to_analyze keys crop_name /\
                 historical_data st !! c = Some df /\
                 (df = [] \/ polyfit_slope (tail 30 (map price df)) = None))) /\
  (forall e, fst (get_market_insights st keys crop_name w) = InsightsError e ->
             e <> IdxValueError /\ snd (get_market_insights st keys crop_name w) = w).
Proof.
  unfold get_market_insights.
  pose proof (analyse_all_fails st (crops_to_analyze keys crop_name)
                ([], mk_Insights [] [])) as Hiff.
  pose proof (analyse_all_error_kind st (crops_to_analyze keys crop_name)
                ([], mk_Insights [] [])) as Hkind.
  destruct (analyse_all st (crops_to_analyze keys crop_name) ([], mk_Insights [] []))
    as [e0 | res].
  - cbn [fst snd]. split.
    + rewrite <- Hiff. split; intros _; by eexists.
    + intros e [= <-]. split; [by apply Hkind | done].
  - cbv zeta. cbn [fst snd]. split; [|by intros e].
    rewrite <- Hiff. split; by intros [e He].
Qed.

(** X20. The report on one commodity with a history has one entry in each
    dictionary. Its current price is the price of the last row of the
    history, rounded to two places, and lies within the reported range; the
    peak and the low month are months of rows of the history; and the first
    recommendation speaks of "most crops" going the way of this one. *)
Theorem X20_single_commodity_report (st : MarketPricePredictor) (keys : list string)
    (crop : string) (df : DataFrame) (w : World)
    (ov : list (string * Overview)) (ins : Insights) (recs : list string) :
  crop <> "" ->
  historical_data st !! crop = Some df ->
  fst (get_market_insights st keys (Some crop) w) = InsightsOk ov ins recs ->
  exists o t p r0,
    ov = [(crop, o)] /\ price_trends ins = [(crop, t)] /\
    seasonal_patterns ins = [(crop, p)] /\
    last df = Some r0 /\ current_price o = round2 (Fin (price r0)) /\
    (exists lo cur hi, price_range_min o = Fin lo /\ current_price o = Fin cur /\
                       price_range_max o = Fin hi /\ (lo <= cur)%Q /\ (cur <= hi)%Q) /\
    (exists r1, r1 ∈ df /\ month (date r1) = peak_month p) /\
    (exists r2, r2 ∈ df /\ month (date r2) = low_month p) /\
    (trend_direction t = "upward" /\
     head recs
     = Some "Most crops showing upward price trends - favorable market conditions" \/
     trend_direction t = "downward" /\
     head recs
     = Some "Most crops showing downward price trends - consider holding produce").
Proof.
  intros Hne Hh. unfold get_market_insights, crops_to_analyze.
  apply String.eqb_neq in Hne. rewrite Hne.
  cbn [analyse_all]. rewrite Hh.
  destruct (analyse_crop_cases df)
    as [[Hd Ha] | [(Hd & Hs & Ha) |
         (Hd & slope & o & t & p & Hs & Ha & Hcur & Hrange & Hdir & Hpeak & Hlow)]];
    rewrite Ha; [discriminate | discriminate |].
  cbv zeta. cbn [fst snd dict_set price_trends seasonal_patterns].
  intros [= <- <- <-].
  destruct Hcur as (r0 & Hlast & Hcur).
  exists o, t, p, r0. cbn [price_trends seasonal_patterns].
  do 5 (split; [done|]). split; [done|]. split; [done|]. split; [done|].
  unfold _generate_market_recommendations. cbv zeta.
  cbn [fst snd price_trends List.filter length].
  rewrite Hdir. destruct (fgt slope (Fin 0)); [left | right]; by split.
Qed.

End InsightProperties.

(** ** Instances of the properties of the market insights *)

Import InsightsFixture.

Lemma X17_witness :
  map fst (overview_of full_report)
  = List.filter (fun c => bool_decide (is_Some (historical_data small !! c)))
                (crops_to_analyze ["Rice"; "Coffee"] None) /\
  map fst (price_trends (insights_of full_report)) = map fst (overview_of full_report) /\
  map fst (seasonal_patterns (insights_of full_report))
  = map fst (overview_of full_report).
Proof.
  apply (X17_report_commodities small ["Rice"; "Coffee"] None world_zero
           (overview_of full_report) (insights_of full_report)
           (recommendations_of full_report)).
  - apply NoDup_cons. split; [|apply NoDup_singleton].
    intros H. apply list_elem_of_singleton in H. discriminate H.
  - vm_compute. reflexivity.
Defined.

Lemma X18_witness :
  get_market_insights small [] (Some "Wheat") world_zero
  = (InsightsOk [] (mk_Insights [] []) [],
     mk_World (rng_tape world_zero) (rng_pos world_zero) (clock world_zero)
              (S (clock_pos world_zero))).
Proof.
  apply (X18_report_of_nothing small [] (Some "Wheat") world_zero).
  intros c Hc. apply list_elem_of_singleton in Hc. subst c.
  vm_compute. reflexivity.
Defined.

Lemma X20_witness :
  exists o t p r0,
    overview_of rice_report = [("Rice", o)] /\
    price_trends (insights_of rice_report) = [("Rice", t)] /\
    seasonal_patterns (insights_of rice_report) = [("Rice", p)] /\
    last (rising_series "Rice" 40) = Some r0 /\
    current_price o = round2 (Fin (price r0)) /\
    (exists lo cur hi, price_range_min o = Fin lo /\ current_price o = Fin cur /\
                       price_range_max o = Fin hi /\ (lo <= cur)%Q /\ (cur <= hi)%Q) /\
    (exists r1, r1 ∈ rising_series "Rice" 40 /\ month (date r1) = peak_month p) /\
    (exists r2, r2 ∈ rising_series "Rice" 40 /\ month (date r2) = low_month p) /\
    (trend_direction t = "upward" /\
     head (recommendations_of rice_report)
     = Some "Most crops showing upward price trends - favorable market conditions" \/
     trend_direction t = "downward" /\
     head (recommendations_of rice_report)
     = Some "Most crops showing downward price trends - consider holding produce").
Proof.
  apply (X20_single_commodity_report small [] "Rice" (rising_series "Rice" 40)
           world_zero (overview_of rice_report) (insights_of rice_report)
           (recommendations_of rice_report)).
  - discriminate.
  - vm_compute. reflexivity.
  - vm_compute. reflexivity.
Defined.
